(** * Live Editor: a shallow embedding of the onboarding flow and its helpers

    The development follows the TypeScript sources of the editor:
    - [Media]   : [greatestCommonDenominator] and [fractReduce] of the image field;
    - [Server]  : [ServerApi.resolveUrl];
    - [Clean]   : the [DeepClean] utility;
    - [Editor]  : [LiveEditor.render] and its two coalescing flags;
    - [GitHub]  : the [GitHubOnboardingPart] (template dispatch, list loading,
                  click handlers, popstate handler).

    JavaScript numbers are modelled by [Z] (every integer below 2^53 in
    absolute value is an exact double), strings by [string] (code units
    restricted to one byte), [undefined] by [None]. *)

From Stdlib Require Import ZArith List String Ascii Bool Lia Arith.
From Equations Require Import Equations.
Import ListNotations.

Set Implicit Arguments.

(* ===================================================================== *)
(** * Part I: the embedding                                               *)
(* ===================================================================== *)

(** ** Image field: aspect ratio helpers *)

Module Media.

Local Open Scope Z_scope.

(** [denominator ? gcd(denominator, numerator % denominator) : numerator].
    A JavaScript number is falsy exactly when it is zero (NaN is outside
    the integer model); [%] truncates towards zero, which is [Z.rem]. *)
Equations? greatestCommonDenominator (numerator denominator : Z) : Z
  by wf (Z.abs_nat denominator) lt :=
  greatestCommonDenominator numerator denominator
    with Z.eq_dec denominator 0 => {
    | left _ := numerator;
    | right _ :=
        greatestCommonDenominator denominator (Z.rem numerator denominator) }.
Proof.
  pose proof (Z.rem_bound_abs numerator denominator) as Hrem.
  lia.
Qed.

(** The [/] of JavaScript on two integers.  The result is an integer only
    when the divisor is not zero and divides the dividend; the other
    results (a fraction, NaN, an infinity) are outside the model. *)
Definition numberDiv (a b : Z) : option Z :=
  if b =? 0 then None
  else if Z.rem a b =? 0 then Some (Z.quot a b) else None.

(** [[numerator / fracGcd, denominator / fracGcd]] *)
Definition fractReduce (numerator denominator : Z) : option (Z * Z) :=
  let fracGcd := greatestCommonDenominator numerator denominator in
  match numberDiv numerator fracGcd, numberDiv denominator fracGcd with
  | Some p, Some q => Some (p, q)
  | _, _ => None
  end.

End Media.

(** ** JavaScript strings *)

Module Js.

Local Open Scope string_scope.

(** Truthiness of an optional string: [undefined] and [""] are falsy. *)
Definition truthy (s : option string) : bool :=
  match s with
  | None => false
  | Some "" => false
  | Some _ => true
  end.

(** [a || undefined] on an optional string. *)
Definition orUndefined (s : option string) : option string :=
  if truthy s then s else None.

(** A template literal prints [undefined] for a missing value. *)
Definition interpolate (s : option string) : string :=
  match s with
  | Some x => x
  | None => "undefined"
  end.

(** [s.startsWith(p)] *)
Fixpoint startsWith (s p : string) : bool :=
  match p, s with
  | "", _ => true
  | String c p', String d s' => Ascii.eqb d c && startsWith s' p'
  | String _ _, "" => false
  end.

(** [s.includes(p)]: [p] occurs at some position of [s]. *)
Fixpoint includes (s p : string) : bool :=
  startsWith s p ||
  match s with
  | "" => false
  | String _ s' => includes s' p
  end.

(** [s.slice(n)] *)
Fixpoint drop (n : nat) (s : string) : string :=
  match n, s with
  | O, _ => s
  | S n', String _ s' => drop n' s'
  | S _, "" => ""
  end.

(** White space and line terminators among the one-byte code units:
    TAB, LF, VT, FF, CR, SPACE and NO-BREAK SPACE. *)
Definition isWhiteSpace (c : ascii) : bool :=
  let n := nat_of_ascii c in
  ((9 <=? n)%nat && (n <=? 13)%nat) || (n =? 32)%nat || (n =? 160)%nat.

Fixpoint trimStart (s : string) : string :=
  match s with
  | String c s' => if isWhiteSpace c then trimStart s' else s
  | "" => ""
  end.

Fixpoint trimEnd (s : string) : string :=
  match s with
  | "" => ""
  | String c s' =>
      match trimEnd s' with
      | "" => if isWhiteSpace c then "" else String c ""
      | t => String c t
      end
  end.

(** [s.trim()] *)
Definition trim (s : string) : string := trimEnd (trimStart s).

(** The regular expressions the sources use: one character, or one
    character under a greedy star. *)
Inductive RegExp :=
| ReChar (c : ascii)
| ReStar (c : ascii).

(** Length of the longest run of [c] at the start of [s]. *)
Fixpoint run (c : ascii) (s : string) : nat :=
  match s with
  | String d s' => if Ascii.eqb d c then S (run c s') else O
  | "" => O
  end.

(** Length of the match of [r] anchored at the start of [s], if any. *)
Definition matchHere (r : RegExp) (s : string) : option nat :=
  match r with
  | ReChar c =>
      match s with
      | String d _ => if Ascii.eqb d c then Some 1%nat else None
      | "" => None
      end
  | ReStar c => Some (run c s)
  end.

(** [s.replace(r, replacement)] for a regular expression without the
    global flag: the leftmost match is replaced, and the string is
    returned as it is when nothing matches.  The replacement strings of
    the sources contain no [$] pattern. *)
Fixpoint replace (r : RegExp) (replacement s : string) : string :=
  match matchHere r s with
  | Some n => replacement ++ drop n s
  | None =>
      match s with
      | String c s' => String c (replace r replacement s')
      | "" => ""
      end
  end.

(** [s.replace(p, replacement)] for a string pattern: the leftmost
    occurrence of [p] is replaced. *)
Fixpoint replaceString (p replacement s : string) : string :=
  if startsWith s p then replacement ++ drop (String.length p) s
  else
    match s with
    | String c s' => String c (replaceString p replacement s')
    | "" => ""
    end.

End Js.

(** ** The API client *)

Module Server.

Import Js.
Local Open Scope string_scope.

(** The classes of the client differ by their [baseUrl] getter only; an
    instance is modelled by what the getter returns. *)
Record ServerApi := { baseUrl : string }.

(** [ServerApi]: the getter returns ['/']. *)
Definition newServerApi : ServerApi := {| baseUrl := "/" |}.

Definition servicePath (service organization project branch : string) :=
  "/" ++ service ++ "/" ++ organization ++ "/" ++ project ++ "/"
      ++ branch ++ "/".

(** [new ServiceServerApi(service, organization, project, branch?)]:
    the branch defaults to [main], and [isUnstable] is set. *)
Definition newServiceServerApi
  (service organization project : string) (branch : option string)
  : ServerApi :=
  let branch := if truthy branch then interpolate branch else "main" in
  let isUnstable := true in
  {| baseUrl :=
       ("https://api." ++ (if isUnstable then "beta." else "") ++ "editor.dev")
         ++ servicePath service organization project branch |}.

(** [new DevServiceServerApi(...)]: the same constructor, another domain. *)
Definition newDevServiceServerApi
  (service organization project : string) (branch : option string)
  : ServerApi :=
  let branch := if truthy branch then interpolate branch else "main" in
  {| baseUrl :=
       "http://localhost:9090"
         ++ servicePath service organization project branch |}.

(** [path = path.replace(/\/*/, ''); return `${this.baseUrl}${path}`] *)
Definition resolveUrl (api : ServerApi) (path : string) : string :=
  let path := replace (ReStar "/") "" path in
  baseUrl api ++ path.

(** [n] slashes. *)
Fixpoint slashes (n : nat) : string :=
  match n with
  | O => ""
  | S n' => String "/" (slashes n')
  end.

End Server.

(** ** Deep cleaning of structured data *)

Module Clean.

Local Open Scope string_scope.

(** Values that are neither an object nor an array are never looked
    into by the cleaner: primitives, [null], [undefined]. *)
Inductive atom :=
| ANull
| AUndefined
| ABoolean (b : bool)
| ANumber (n : Z)
| AString (s : string).

#[local] Set Warnings "-register-all".

(** Structured data.  An object lists its own enumerable properties in
    the order of [Object.entries]; their keys are distinct.  Of its
    prototype the model keeps the one thing that the cleaner reads
    through it: whether the [constructor] that the object inherits is
    [Object], as it is for an object literal and for a result of
    [JSON.parse]. *)
Inductive value :=
| VAtom (a : atom)
| VArray (items : list value)
| VObject (inheritsObject : bool) (entries : list (string * value)).

Record DeepCleanConfig := { removeEmptyObjects : option bool }.

(** [key in] the own properties. *)
Definition hasOwnProperty (key : string) (entries : list (string * value))
  : bool :=
  existsb (fun kv => String.eqb (fst kv) key) entries.

(** [DataType.isObject] of the selective-edit library:
    [value && typeof value === 'object' && value.constructor === Object].
    An own property [constructor] hides the inherited one, and as a
    piece of data it is never the function [Object]. *)
Definition isObject (v : value) : bool :=
  match v with
  | VObject inheritsObject entries =>
      inheritsObject && negb (hasOwnProperty "constructor" entries)
  | _ => false
  end.

(** [DataType.isArray] *)
Definition isArray (v : value) : bool :=
  match v with VArray _ => true | _ => false end.

(** [newValue[key] = value] on the object under construction.  The key
    [__proto__] reaches the setter of [Object.prototype]: no property is
    stored; an object, an array or [null] becomes the prototype, and
    with it the inherited [constructor] changes; any other value is
    ignored.  Every other key stores an own property after the ones
    that are there: the keys of [Object.entries] are distinct, so the
    key is new to [newValue]. *)
Definition setProperty (key : string) (v : value) (newValue : value)
  : value :=
  match newValue with
  | VObject inheritsObject entries =>
      if String.eqb key "__proto__" then
        match v with
        | VAtom ANull => VObject false entries
        | VAtom _ => newValue
        | VArray _ => VObject false entries
        | VObject _ _ => VObject (isObject v) entries
        end
      else VObject inheritsObject (entries ++ [(key, v)])%list
  | _ => newValue
  end.

(** [this.config.removeEmptyObjects && !Object.keys(value).length] *)
Definition dropsEmpty (config : DeepCleanConfig) (v : value) : bool :=
  match removeEmptyObjects config with
  | Some true => match v with VObject _ [] => true | _ => false end
  | _ => false
  end.

(** [cleanRecord]: the loop over [Object.entries(originalValue)] that
    fills [newValue], a fresh object literal.  The method is protected
    and every call passes a value that [isObject] has accepted, so the
    last case is never reached. *)
Fixpoint cleanRecord (config : DeepCleanConfig) (originalValue : value)
  : value :=
  match originalValue with
  | VObject _ entries =>
      fold_left
        (fun newValue kv =>
           if isObject (snd kv) then
             let value := cleanRecord config (snd kv) in
             if dropsEmpty config value then newValue
             else setProperty (fst kv) value newValue
           else setProperty (fst kv) (snd kv) newValue)
        entries (VObject true [])
  | _ => VObject true []
  end.

(** [cleanArray]: the loop that pushes onto [newValue]. *)
Definition cleanArray (config : DeepCleanConfig) (originalValue : list value)
  : list value :=
  fold_left
    (fun newValue value =>
       if isObject value then
         let value := cleanRecord config value in
         if dropsEmpty config value then newValue
         else (newValue ++ [value])%list
       else (newValue ++ [value])%list)
    originalValue [].

Definition clean (config : DeepCleanConfig) (v : value) : value :=
  if isObject v then cleanRecord config v
  else
    match v with
    | VArray items => VArray (cleanArray config items)
    | _ => v
    end.

End Clean.

(** ** The editor and its render loop *)

Module Editor.

(** The two flags of [LiveEditor], and two counters that observe its
    effects: how often the template was rendered into the container, and
    how often [EVENT_RENDER_COMPLETE] was dispatched. *)
Record LiveEditor := {
  isPendingRender : bool;
  isRendering : bool;
  rendered : nat;
  completed : nat;
}.

(** The editor as its constructor leaves it. *)
Definition newLiveEditor : LiveEditor :=
  {| isPendingRender := false; isRendering := false;
     rendered := 0; completed := 0 |}.

Definition setPendingRender (b : bool) (e : LiveEditor) : LiveEditor :=
  {| isPendingRender := b; isRendering := isRendering e;
     rendered := rendered e; completed := completed e |}.

Definition setRendering (b : bool) (e : LiveEditor) : LiveEditor :=
  {| isPendingRender := isPendingRender e; isRendering := b;
     rendered := rendered e; completed := completed e |}.

Definition countRendered (e : LiveEditor) : LiveEditor :=
  {| isPendingRender := isPendingRender e; isRendering := isRendering e;
     rendered := S (rendered e); completed := completed e |}.

Definition countCompleted (e : LiveEditor) : LiveEditor :=
  {| isPendingRender := isPendingRender e; isRendering := isRendering e;
     rendered := rendered e; completed := S (completed e) |}.

(** What the code around the editor does with it.  While the template of
    pass number [i] is rendered, the parts call [editor.render()]
    [duringTemplate i] times; the listeners of the [EVENT_RENDER_COMPLETE]
    that follows pass [i] call it [onRenderComplete i] times.  Passes are
    numbered in the order they start. *)
Record Surroundings := {
  duringTemplate : nat -> nat;
  onRenderComplete : nat -> nat;
}.

(** [n] calls in a row; [None] when one of them does not return. *)
Fixpoint calls (n : nat) (call : LiveEditor -> option LiveEditor)
  (e : LiveEditor) : option LiveEditor :=
  match n with
  | O => Some e
  | S n' =>
      match call e with
      | Some e' => calls n' call e'
      | None => None
      end
  end.

(** [LiveEditor.render].  The fuel bounds the depth of calls; [None] is
    a call that has not returned within it. *)
Fixpoint render (fuel : nat) (around : Surroundings) (e : LiveEditor)
  : option LiveEditor :=
  if isRendering e then Some (setPendingRender true e)
  else
    match fuel with
    | O => None
    | S fuel' =>
        let e := setPendingRender false e in
        let e := setRendering true e in
        let pass := rendered e in
        (* render(this.template(this), this.container) *)
        match calls (duringTemplate around pass) (render fuel' around)
                (countRendered e) with
        | None => None
        | Some e =>
            let e := setRendering false e in
            (* document.dispatchEvent(new CustomEvent(EVENT_RENDER_COMPLETE)) *)
            match calls (onRenderComplete around pass) (render fuel' around)
                    (countCompleted e) with
            | None => None
            | Some e =>
                if isPendingRender e then render fuel' around e else Some e
            end
        end
    end.

(** The editor at rest after [k] more passes. *)
Definition settled (e : LiveEditor) (k : nat) : LiveEditor :=
  {| isPendingRender := false; isRendering := false;
     rendered := rendered e + k; completed := completed e + k |}.

(** Three requests come in during the first pass of a new editor. *)
Definition busyFirstPass : Surroundings :=
  {| duringTemplate := fun pass => if Nat.eqb pass 0 then 3 else 0;
     onRenderComplete := fun _ => 0 |}.

End Editor.

(** ** The GitHub onboarding part *)

Module GitHub.

Import Js.
Local Open Scope string_scope.

Definition APP_URL : string := "https://github.com/apps/editor-dev".
Definition BASE_URL : string := "/gh/".
Definition MIN_FILTER_LENGTH : nat := 9.

(** *** Data of the API *)

Record GitHubInstallationInfo := {
  id : Z;
  org : string;
  url : option string;
}.

Record GitHubOrgInstallationInfo := {
  repoOrg : string;
  repo : string;
  updatedAt : option string;
}.

Record WorkspaceData := { name : string }.

(** The fields of [this.api] that the part reads and writes;
    [authenticated] is the answer of [this.api.checkAuth()]. *)
Record GitHubApi := {
  authenticated : bool;
  organization : option string;
  project : option string;
  branch : option string;
}.

(** The state that the browser keeps with a history entry.  [null] is the
    state of an entry that was pushed without one. *)
Record NavigationEntry := {
  onboarding : option bool;
  entryOrganization : option string;
  entryRepository : option string;
  entryBranch : option string;
}.

Inductive HistoryState :=
| StateNull
| StateObject (entry : NavigationEntry).

Record GitHubOnboardingPart := {
  api : GitHubApi;
  organizations : option (list GitHubInstallationInfo);
  installation : option GitHubInstallationInfo;
  listFilter : option string;
  repositories : option (list GitHubOrgInstallationInfo);
  repositoriesId : option Z;
  workspaces : option (list WorkspaceData);
  workspacesId : option string;
  (** [storage.getItemRecord(STORAGE_RECENT)?.projects] *)
  storedRecent : option (list string);
}.

(** *** Assignments *)

Definition withApi (a : GitHubApi) (p : GitHubOnboardingPart) :=
  {| api := a; organizations := organizations p;
     installation := installation p; listFilter := listFilter p;
     repositories := repositories p; repositoriesId := repositoriesId p;
     workspaces := workspaces p; workspacesId := workspacesId p;
     storedRecent := storedRecent p |}.

Definition withOrganization (v : option string) (p : GitHubOnboardingPart) :=
  withApi {| authenticated := authenticated (api p); organization := v;
             project := project (api p); branch := branch (api p) |} p.

Definition withProject (v : option string) (p : GitHubOnboardingPart) :=
  withApi {| authenticated := authenticated (api p);
             organization := organization (api p);
             project := v; branch := branch (api p) |} p.

Definition withBranch (v : option string) (p : GitHubOnboardingPart) :=
  withApi {| authenticated := authenticated (api p);
             organization := organization (api p);
             project := project (api p); branch := v |} p.

Definition withOrganizations v (p : GitHubOnboardingPart) :=
  {| api := api p; organizations := v;
     installation := installation p; listFilter := listFilter p;
     repositories := repositories p; repositoriesId := repositoriesId p;
     workspaces := workspaces p; workspacesId := workspacesId p;
     storedRecent := storedRecent p |}.

Definition withInstallation v (p : GitHubOnboardingPart) :=
  {| api := api p; organizations := organizations p;
     installation := v; listFilter := listFilter p;
     repositories := repositories p; repositoriesId := repositoriesId p;
     workspaces := workspaces p; workspacesId := workspacesId p;
     storedRecent := storedRecent p |}.

Definition withListFilter v (p : GitHubOnboardingPart) :=
  {| api := api p; organizations := organizations p;
     installation := installation p; listFilter := v;
     repositories := repositories p; repositoriesId := repositoriesId p;
     workspaces := workspaces p; workspacesId := workspacesId p;
     storedRecent := storedRecent p |}.

Definition withRepositories v (p : GitHubOnboardingPart) :=
  {| api := api p; organizations := organizations p;
     installation := installation p; listFilter := listFilter p;
     repositories := v; repositoriesId := repositoriesId p;
     workspaces := workspaces p; workspacesId := workspacesId p;
     storedRecent := storedRecent p |}.

Definition withRepositoriesId v (p : GitHubOnboardingPart) :=
  {| api := api p; organizations := organizations p;
     installation := installation p; listFilter := listFilter p;
     repositories := repositories p; repositoriesId := v;
     workspaces := workspaces p; workspacesId := workspacesId p;
     storedRecent := storedRecent p |}.

Definition withWorkspaces v (p : GitHubOnboardingPart) :=
  {| api := api p; organizations := organizations p;
     installation := installation p; listFilter := listFilter p;
     repositories := repositories p; repositoriesId := repositoriesId p;
     workspaces := v; workspacesId := workspacesId p;
     storedRecent := storedRecent p |}.

Definition withWorkspacesId v (p : GitHubOnboardingPart) :=
  {| api := api p; organizations := organizations p;
     installation := installation p; listFilter := listFilter p;
     repositories := repositories p; repositoriesId := repositoriesId p;
     workspaces := workspaces p; workspacesId := v;
     storedRecent := storedRecent p |}.

(** *** Effects and completions *)

(** What a method does to the world outside the part. *)
Inductive Effect :=
| GetOrganizations
| GetRepositories (installationId : Z)
| GetWorkspaces (organization project : option string)
| RequestRender
| PushState (entry : NavigationEntry) (title url : string)
| DispatchOnboardingUpdate
| CheckOnboarding
| ConsoleError (message : string)
| ConsoleLog (message : string).

Inductive JsError := TypeError.

(** A method call either returns or throws; in both cases it leaves the
    part in some state and has caused some effects, in order. *)
Inductive Completion (A : Type) :=
| Normal (result : A) (p : GitHubOnboardingPart) (log : list Effect)
| Throw (error : JsError) (p : GitHubOnboardingPart) (log : list Effect).

Arguments Throw {A} error p log.

Definition M (A : Type) : Type := GitHubOnboardingPart -> Completion A.

Definition ret {A} (a : A) : M A := fun p => Normal a p [].

Definition bind {A B} (c : M A) (k : A -> M B) : M B :=
  fun p =>
    match c p with
    | Normal a p' log =>
        match k a p' with
        | Normal b p'' log' => Normal b p'' (log ++ log')
        | Throw e p'' log' => Throw e p'' (log ++ log')
        end
    | Throw e p' log => Throw e p' log
    end.

Notation "x <- c ;; k" := (bind c (fun x => k))
  (at level 61, c at next level, right associativity).
Notation "c ;; k" := (bind c (fun _ => k))
  (at level 61, right associativity).

Definition this : M GitHubOnboardingPart := fun p => Normal p p [].

Definition assign (f : GitHubOnboardingPart -> GitHubOnboardingPart)
  : M unit := fun p => Normal tt (f p) [].

Definition emit (e : Effect) : M unit := fun p => Normal tt p [e].

Definition throw {A} (e : JsError) : M A := fun p => Throw e p [].

Definition when (b : bool) (c : M unit) : M unit :=
  if b then c else ret tt.

Definition isSome {A} (o : option A) : bool :=
  match o with Some _ => true | None => false end.

(** [this.render()] of the part asks the editor for a render. *)
Definition render : M unit := emit RequestRender.

(** *** Methods *)

Definition generateUrl (organization repository workspace : option string)
  : string :=
  if truthy organization && truthy repository && truthy workspace then
    BASE_URL ++ interpolate organization ++ "/" ++ interpolate repository
      ++ "/" ++ interpolate workspace ++ "/"
  else if truthy organization && truthy repository then
    BASE_URL ++ interpolate organization ++ "/" ++ interpolate repository
      ++ "/"
  else if truthy organization then
    BASE_URL ++ interpolate organization ++ "/"
  else BASE_URL.

Definition handleFilterInput (value : string) : M unit :=
  assign (withListFilter (Some value)) ;;
  render.

(** Reading a property of [null] throws; the fields of the entry are
    read with [|| undefined]. *)
Definition handlePopstate (state : HistoryState) : M unit :=
  match state with
  | StateNull => throw TypeError
  | StateObject entry =>
      match onboarding entry with
      | Some true =>
          assign (withOrganization (orUndefined (entryOrganization entry))) ;;
          assign (withProject (orUndefined (entryRepository entry))) ;;
          assign (withBranch (orUndefined (entryBranch entry))) ;;
          emit CheckOnboarding
      | _ => ret tt
      end
  end.

(** The three loaders start a request; the [then] and [catch] callbacks
    of each run later, when the promise settles. *)
Definition loadWorkspaces : M unit :=
  p <- this ;;
  emit (GetWorkspaces (organization (api p)) (project (api p))).

Definition workspacesThen (workspaces : list WorkspaceData) : M unit :=
  assign (withWorkspaces (Some workspaces)) ;;
  p <- this ;;
  assign (withWorkspacesId (project (api p))) ;;
  render.

Definition workspacesCatch : M unit :=
  emit (ConsoleError "Unable to retrieve the list of branches.").

Definition loadOrganizations : M unit :=
  emit GetOrganizations.

Definition organizationsThen (organizations : list GitHubInstallationInfo)
  : M unit :=
  assign (withOrganizations (Some organizations)) ;;
  render.

Definition organizationsCatch : M unit :=
  emit (ConsoleError "Unable to retrieve the list of organizations.").

(** The [for] loop of [loadRepositories]: the first installation of the
    organization. *)
Definition findInstallation (organization : option string)
  (organizations : list GitHubInstallationInfo)
  : option GitHubInstallationInfo :=
  find (fun o => match organization with
                 | Some name => String.eqb (org o) name
                 | None => false
                 end) organizations.

Definition loadRepositories : M unit :=
  p <- this ;;
  when (negb (isSome (organizations p))) loadOrganizations ;;
  p <- this ;;
  returned <-
    match organizations p with
    | Some organizations =>
        if negb (isSome (installation p)) && truthy (organization (api p))
        then
          assign (withInstallation
                    (findInstallation (organization (api p)) organizations)) ;;
          p <- this ;;
          if negb (isSome (installation p)) then
            emit (ConsoleError
                    ("No installation found for "
                       ++ interpolate (organization (api p)))) ;;
            assign (withRepositories (Some [])) ;;
            render ;;
            ret true
          else ret false
        else ret false
    | None => ret false
    end ;;
  if (returned : bool) then ret tt
  else
    p <- this ;;
    match installation p with
    | None => ret tt
    | Some i => emit (GetRepositories (id i))
    end.

Definition repositoriesThen (repositories : list GitHubOrgInstallationInfo)
  : M unit :=
  assign (withRepositories (Some repositories)) ;;
  p <- this ;;
  assign (withRepositoriesId (option_map id (installation p))) ;;
  render.

Definition repositoriesCatch : M unit :=
  emit (ConsoleError "Unable to retrieve the list of repositories.").

(** *** Filtering a loaded list *)

(** [this.listFilter || ''] *)
Definition orEmpty (s : option string) : string :=
  match s with Some x => x | None => "" end.

(** [this.listFilter && this.listFilter.trim() !== ''] *)
Definition filterActive (listFilter : option string) : bool :=
  truthy listFilter && negb (String.eqb (trim (orEmpty listFilter)) "").

(** [let filtered = list; if (list && filter active) filtered =
    list.filter(item => name(item).includes(this.listFilter || ''))] *)
Definition filterList {A : Type} (displayName : A -> string)
  (listFilter : option string) (loaded : option (list A))
  : option (list A) :=
  match loaded with
  | Some items =>
      if filterActive listFilter then
        Some (filter (fun item =>
                        includes (displayName item) (orEmpty listFilter))
                items)
      else loaded
  | None => None
  end.

(** [Boolean(list && list.length > MIN_FILTER_LENGTH)] *)
Definition longList {A : Type} (loaded : option (list A)) : bool :=
  match loaded with
  | Some items => (MIN_FILTER_LENGTH <? List.length items)%nat
  | None => false
  end.

(** [list && !list.length] *)
Definition emptyList {A : Type} (loaded : option (list A)) : bool :=
  match loaded with
  | Some [] => true
  | _ => false
  end.

(** [filtered || []] *)
Definition orNil {A : Type} (loaded : option (list A)) : list A :=
  match loaded with Some items => items | None => [] end.


(** *** Templates *)

(** What a template shows of a list: the heading, whether the loading
    status and the filter input are there, the options in order, and
    whether the notice of an empty list is there. *)
Record ListView (A : Type) := {
  title : string;
  loading : bool;
  filterShown : bool;
  options : list A;
  emptyNotice : bool;
}.

Inductive View :=
| LoginView
| OrganizationsView (shown : ListView GitHubInstallationInfo)
| RepositoriesView (shown : ListView GitHubOrgInstallationInfo)
    (recent : list string) (installed : bool)
| WorkspacesView (shown : ListView WorkspaceData).

Definition templateOrganizations : M View :=
  p <- this ;;
  when (negb (isSome (organizations p))) loadOrganizations ;;
  p <- this ;;
  let useFilter := longList (organizations p) in
  let filtered := filterList org (listFilter p) (organizations p) in
  ret (OrganizationsView
         {| title := "Organizations";
            loading := negb (isSome (organizations p));
            filterShown := useFilter;
            options := orNil filtered;
            emptyNotice := emptyList (organizations p) |}).

(** The recent projects of the current organization. *)
Definition recentProjects (p : GitHubOnboardingPart) : list string :=
  filter (fun project =>
            startsWith project (interpolate (organization (api p)) ++ "/"))
    (orNil (storedRecent p)).

(** A number is truthy when it is there and not zero. *)
Definition truthyNumber (n : option Z) : bool :=
  match n with
  | Some z => negb (z =? 0)%Z
  | None => false
  end.

(** [a !== b] on optional numbers and on optional strings. *)
Definition differentNumber (a b : option Z) : bool :=
  match a, b with
  | Some x, Some y => negb (x =? y)%Z
  | None, None => false
  | _, _ => true
  end.

Definition differentString (a b : option string) : bool :=
  match a, b with
  | Some x, Some y => negb (String.eqb x y)
  | None, None => false
  | _, _ => true
  end.

(** [this.repositories && this.repositoriesId &&
    this.installation?.id !== this.repositoriesId] *)
Definition staleRepositories (p : GitHubOnboardingPart) : bool :=
  isSome (repositories p) && truthyNumber (repositoriesId p)
  && differentNumber (option_map id (installation p)) (repositoriesId p).

(** [this.workspaces && this.workspacesId &&
    this.api.project !== this.workspacesId] *)
Definition staleWorkspaces (p : GitHubOnboardingPart) : bool :=
  isSome (workspaces p) && truthy (workspacesId p)
  && differentString (project (api p)) (workspacesId p).

Definition templateRepositories : M View :=
  p <- this ;;
  when (staleRepositories p) (assign (withRepositories None)) ;;
  p <- this ;;
  when (negb (isSome (repositories p))) loadRepositories ;;
  p <- this ;;
  let useFilter := longList (repositories p) in
  when (isSome (repositories p) && filterActive (listFilter p))
       (emit (ConsoleLog "filtered!")) ;;
  let filtered := filterList repo (listFilter p) (repositories p) in
  ret (RepositoriesView
         {| title := "Repositories in " ++ interpolate (organization (api p));
            loading := negb (isSome (repositories p));
            filterShown := useFilter;
            options := orNil filtered;
            emptyNotice := emptyList (repositories p) |}
         (recentProjects p)
         (isSome (installation p))).

Definition templateWorkspaces : M View :=
  p <- this ;;
  when (staleWorkspaces p) (assign (withWorkspaces None)) ;;
  p <- this ;;
  let useFilter := longList (workspaces p) in
  when (negb (isSome (workspaces p))) loadWorkspaces ;;
  p <- this ;;
  let filtered := filterList name (listFilter p) (workspaces p) in
  ret (WorkspacesView
         {| title := "Workspaces in " ++ interpolate (organization (api p))
                       ++ "/" ++ interpolate (project (api p));
            loading := negb (isSome (workspaces p));
            filterShown := useFilter;
            options := orNil filtered;
            emptyNotice := emptyList (workspaces p) |}).

Definition template : M View :=
  p <- this ;;
  if negb (authenticated (api p)) then ret LoginView
  else if negb (truthy (organization (api p))) then templateOrganizations
  else if negb (truthy (project (api p))) then templateRepositories
  else templateWorkspaces.

(** *** Click handlers of the options *)

Definition clickOrganization (o : GitHubInstallationInfo) : M bool :=
  assign (withOrganization (Some (org o))) ;;
  assign (withInstallation (Some o)) ;;
  assign (withListFilter None) ;;
  p <- this ;;
  emit (PushState
          {| onboarding := Some true;
             entryOrganization := organization (api p);
             entryRepository := None;
             entryBranch := None |}
          (org o)
          (generateUrl (Some (org o)) None None)) ;;
  render ;;
  ret false.

Definition clickRecentProject (projectId : string) : M bool :=
  p <- this ;;
  let repository :=
    replaceString (interpolate (organization (api p)) ++ "/") "" projectId in
  assign (withProject (Some repository)) ;;
  assign (withListFilter None) ;;
  p <- this ;;
  emit (PushState
          {| onboarding := Some true;
             entryOrganization := organization (api p);
             entryRepository := Some repository;
             entryBranch := None |}
          repository
          (generateUrl (organization (api p)) (project (api p)) None)) ;;
  render ;;
  ret false.

Definition clickRepository (r : GitHubOrgInstallationInfo) : M bool :=
  assign (withProject (Some (repo r))) ;;
  assign (withListFilter None) ;;
  p <- this ;;
  emit (PushState
          {| onboarding := Some true;
             entryOrganization := organization (api p);
             entryRepository := Some (repo r);
             entryBranch := None |}
          (repo r)
          (generateUrl (organization (api p)) (Some (repo r)) None)) ;;
  render ;;
  ret false.

Definition clickWorkspace (w : WorkspaceData) : M bool :=
  assign (withBranch (Some (name w))) ;;
  p <- this ;;
  emit (PushState
          {| onboarding := Some true;
             entryOrganization := organization (api p);
             entryRepository := project (api p);
             entryBranch := branch (api p) |}
          (name w)
          (generateUrl (organization (api p)) (project (api p))
             (branch (api p)))) ;;
  emit DispatchOnboardingUpdate ;;
  ret false.


(** *** The step of the onboarding *)

Inductive Step := Login | ChooseOrg | ChooseRepo | ChooseWorkspace.

(** The step that a view belongs to. *)
Definition stepOf (v : View) : Step :=
  match v with
  | LoginView => Login
  | OrganizationsView _ => ChooseOrg
  | RepositoriesView _ _ _ => ChooseRepo
  | WorkspacesView _ => ChooseWorkspace
  end.

(** The step as the specification derives it from the identity alone.  A
    selection counts as made when the field is truthy: the empty string
    is no organization and no project, as [undefined] is. *)
Definition computeStep (identity : GitHubApi) : Step :=
  if negb (authenticated identity) then Login
  else if negb (truthy (organization identity)) then ChooseOrg
  else if negb (truthy (project identity)) then ChooseRepo
  else ChooseWorkspace.

(** *** The part in the browser *)

(** The browser runs one handler at a time.  A request that a loader
    started stays in flight until its promise settles, at some later
    turn; the server answers a request by its arguments. *)
Inductive Request :=
| OrganizationsRequest
| RepositoriesRequest (installationId : Z)
| WorkspacesRequest (organization project : option string).

Record Server := {
  serverOrganizations : list GitHubInstallationInfo;
  serverRepositories : Z -> list GitHubOrgInstallationInfo;
  serverWorkspaces : option string -> option string -> list WorkspaceData;
}.

Record World := {
  part : GitHubOnboardingPart;
  inflight : list Request;
  screen : option View;
  trail : list Effect;
  uncaught : list JsError;
}.

Inductive Event :=
| Render
| Popstate (state : HistoryState)
| FilterInput (value : string)
| ClickOrganization (o : GitHubInstallationInfo)
| ClickRecentProject (projectId : string)
| ClickRepository (r : GitHubOrgInstallationInfo)
| ClickWorkspace (w : WorkspaceData)
| Settle (k : nat) (fulfilled : bool).

Definition requestsOf (log : list Effect) : list Request :=
  flat_map (fun e =>
              match e with
              | GetOrganizations => [OrganizationsRequest]
              | GetRepositories i => [RepositoriesRequest i]
              | GetWorkspaces o r => [WorkspacesRequest o r]
              | _ => []
              end) log.

(** The world after a handler has run: its requests are in flight, and a
    template result is on the screen. *)
Definition after {A : Type} (show : A -> option View) (c : Completion A)
  (w : World) : World :=
  match c with
  | Normal a p log =>
      {| part := p;
         inflight := inflight w ++ requestsOf log;
         screen := match show a with
                   | Some v => Some v
                   | None => screen w
                   end;
         trail := trail w ++ log;
         uncaught := uncaught w |}
  | Throw e p log =>
      {| part := p;
         inflight := inflight w ++ requestsOf log;
         screen := screen w;
         trail := trail w ++ log;
         uncaught := uncaught w ++ [e] |}
  end.

Definition quiet {A : Type} (_ : A) : option View := None.

Fixpoint removeNth {A : Type} (k : nat) (l : list A) : list A :=
  match k, l with
  | _, [] => []
  | O, _ :: rest => rest
  | S k', x :: rest => x :: removeNth k' rest
  end.

(** The callback of a settled request. *)
Definition settle (server : Server) (r : Request) (fulfilled : bool)
  : M unit :=
  match r with
  | OrganizationsRequest =>
      if fulfilled then organizationsThen (serverOrganizations server)
      else organizationsCatch
  | RepositoriesRequest i =>
      if fulfilled then repositoriesThen (serverRepositories server i)
      else repositoriesCatch
  | WorkspacesRequest o r =>
      if fulfilled then workspacesThen (serverWorkspaces server o r)
      else workspacesCatch
  end.

Definition step (server : Server) (w : World) (ev : Event) : World :=
  match ev with
  | Render => after (fun v => Some v) (template (part w)) w
  | Popstate state => after quiet (handlePopstate state (part w)) w
  | FilterInput value => after quiet (handleFilterInput value (part w)) w
  | ClickOrganization o => after quiet (clickOrganization o (part w)) w
  | ClickRecentProject s => after quiet (clickRecentProject s (part w)) w
  | ClickRepository r => after quiet (clickRepository r (part w)) w
  | ClickWorkspace x => after quiet (clickWorkspace x (part w)) w
  | Settle k fulfilled =>
      match nth_error (inflight w) k with
      | Some r =>
          after quiet (settle server r fulfilled (part w))
            {| part := part w;
               inflight := removeNth k (inflight w);
               screen := screen w;
               trail := trail w;
               uncaught := uncaught w |}
      | None => w
      end
  end.

Definition run (server : Server) (events : list Event) (w : World) : World :=
  fold_left (step server) events w.

(** The state that the constructor gives to the current history entry:
    [Object.assign({}, history.state || {}, {onboarding: true})]. *)
Definition replacedState (state : HistoryState) : NavigationEntry :=
  let current :=
    match state with
    | StateNull =>
        {| onboarding := None; entryOrganization := None;
           entryRepository := None; entryBranch := None |}
    | StateObject entry => entry
    end in
  {| onboarding := Some true;
     entryOrganization := entryOrganization current;
     entryRepository := entryRepository current;
     entryBranch := entryBranch current |}.

(** A part right after its construction, and the world around it. *)
Definition newPart (a : GitHubApi) (recent : option (list string))
  : GitHubOnboardingPart :=
  {| api := a; organizations := None; installation := None;
     listFilter := None; repositories := None; repositoriesId := None;
     workspaces := None; workspacesId := None; storedRecent := recent |}.

Definition newWorld (p : GitHubOnboardingPart) : World :=
  {| part := p; inflight := []; screen := None; trail := [];
     uncaught := [] |}.


(** *** Vocabulary of the statements about filtering *)

(** [l] is [m] with some items left out, the others in their order. *)
Inductive Subsequence {A : Type} : list A -> list A -> Prop :=
| SubsequenceNil : Subsequence [] []
| SubsequenceSkip x l m : Subsequence l m -> Subsequence l (x :: m)
| SubsequenceKeep x l m : Subsequence l m -> Subsequence (x :: l) (x :: m).

(** Every character of the string is white space. *)
Fixpoint blank (s : string) : bool :=
  match s with
  | "" => true
  | String c s' => isWhiteSpace c && blank s'
  end.

Definition sampleWorkspaces : list WorkspaceData :=
  [ {| name := "main" |}; {| name := "staging" |};
    {| name := "workspace/mail" |} ].


(** *** A sample server and two sample sessions *)

Definition acme : GitHubInstallationInfo :=
  {| id := 7; org := "acme"; url := None |}.

Definition blinkk : GitHubInstallationInfo :=
  {| id := 9; org := "blinkk"; url := None |}.

Definition acmeSite : GitHubOrgInstallationInfo :=
  {| repoOrg := "acme"; repo := "site"; updatedAt := None |}.

Definition acmeBlog : GitHubOrgInstallationInfo :=
  {| repoOrg := "acme"; repo := "blog"; updatedAt := None |}.

Definition sampleServer : Server :=
  {| serverOrganizations := [acme; blinkk];
     serverRepositories := fun i =>
       if (i =? 7)%Z then [acmeSite; acmeBlog]
       else if (i =? 9)%Z then
         [ {| repoOrg := "blinkk"; repo := "editor"; updatedAt := None |} ]
       else [];
     serverWorkspaces := fun o r =>
       if String.eqb (interpolate r) "site" then
         [ {| name := "main" |}; {| name := "staging" |} ]
       else if String.eqb (interpolate r) "blog" then
         [ {| name := "master" |} ]
       else [] |}.

(** Signed in, nothing selected. *)
Definition signedIn : GitHubApi :=
  {| authenticated := true; organization := None; project := None;
     branch := None |}.

Definition backToAcme : HistoryState :=
  StateObject {| onboarding := Some true; entryOrganization := Some "acme";
                 entryRepository := None; entryBranch := None |}.

(** The user picks the organization [acme] and opens its repository
    [site], goes back before the workspaces of [site] have arrived, and
    opens the repository [blog] once they have.  [backToAcme] is the
    entry that the click on the organization pushed. *)
Definition backBeforeWorkspaces : list Event :=
  [ Render; Settle 0 true;            (* the organizations arrive *)
    Render;
    ClickOrganization acme; Render;   (* the repositories are asked for *)
    Settle 0 true; Render;            (* the repositories arrive *)
    ClickRepository acmeSite; Render; (* the workspaces of site are asked for *)
    Popstate backToAcme; Render;      (* back to the repositories *)
    Settle 0 true; Render;            (* the workspaces of site arrive *)
    ClickRepository acmeBlog; Render ].

(** The user picks [acme], goes back to the organizations before the
    repositories of [acme] have arrived, and picks [blinkk]; the
    repositories of [acme] arrive next.  [entry0] is the entry that the
    constructor marked. *)
Definition entry0 : HistoryState := StateObject (replacedState StateNull).

Definition backBeforeRepositories : list Event :=
  [ Render; Settle 0 true;            (* the organizations arrive *)
    Render;
    ClickOrganization acme; Render;   (* the repositories of acme are asked for *)
    Popstate entry0; Render;          (* back to the organizations *)
    ClickOrganization blinkk; Render; (* the repositories of blinkk are asked for *)
    Settle 0 true; Render ].          (* the repositories of acme arrive *)

(** A part that shows the filtered workspaces of a project. *)
Definition samplePart : GitHubOnboardingPart :=
  {| api := {| authenticated := true; organization := Some "acme";
               project := Some "site"; branch := None |};
     organizations := None; installation := None;
     listFilter := Some "ma";
     repositories := None; repositoriesId := None;
     workspaces := Some [ {| name := "main" |}; {| name := "staging" |} ];
     workspacesId := Some "site";
     storedRecent := None |}.

End GitHub.

(** ** Image field: preview of the media and of its metadata *)

Module Image.

Import Js Media.
Local Open Scope string_scope.

(** The table of extensions, in the order of its keys. *)
Definition EXT_TO_MIME_TYPE : list (string * string) :=
  [ ("avif", "image/avif"); ("gif", "image/gif"); ("jpeg", "image/jpg");
    ("jpg", "image/jpg"); ("mp4", "image/mp4"); ("mov", "image/mov");
    ("png", "image/png"); ("svg", "image/svg+xml"); ("webm", "image/webm");
    ("webp", "image/webp") ].

Definition VALID_IMAGE_MIME_TYPES : list string :=
  [ "image/avif"; "image/gif"; "image/jpeg"; "image/png"; "image/svg+xml";
    "image/webp" ].

Definition VALID_VIDEO_MIME_TYPES : list string :=
  [ "image/mp4"; "image/mov"; "image/webm" ].

(** The dimensions of a loaded medium.  A persisted value may lack one. *)
Record ImageMeta := {
  height : option Z;
  width : option Z;
}.

(** The value of the field: the address of the medium and, under the
    reserved key, its metadata. *)
Record FieldValue := {
  url : option string;
  _meta : option ImageMeta;
}.

Record ImageField := {
  meta : option ImageMeta;
  currentValue : option FieldValue;
}.

(** [s.endsWith(suffix)] *)
Definition endsWith (s suffix : string) : bool :=
  (String.length suffix <=? String.length s)%nat
  && String.eqb (drop (String.length s - String.length suffix) s) suffix.

(** [array.includes(x)] on strings. *)
Definition arrayIncludes (array : list string) (x : string) : bool :=
  existsb (String.eqb x) array.

(** [get previewUrl]: the address, when the value has a truthy one. *)
Definition previewUrl (f : ImageField) : option string :=
  match currentValue f with
  | Some value => orUndefined (url value)
  | None => None
  end.

Inductive MediaPreview :=
| NoPreview
| VideoPreview (src : string)
| ImagePreview (src : string).

(** The loop over the keys of the table, with its early return. *)
Fixpoint previewByExtension (table : list (string * string)) (url : string)
  : MediaPreview :=
  match table with
  | [] => ImagePreview url
  | (fileExt, extMimeType) :: rest =>
      let isVideoFile := arrayIncludes VALID_VIDEO_MIME_TYPES extMimeType in
      if isVideoFile && endsWith url ("." ++ fileExt) then VideoPreview url
      else previewByExtension rest url
  end.

Definition templatePreviewMedia (url : option string) : MediaPreview :=
  if negb (truthy url) then NoPreview
  else previewByExtension EXT_TO_MIME_TYPE (interpolate url).

(** [n || 1] on an optional number. *)
Definition orOne (n : option Z) : Z :=
  match n with
  | Some z => if (z =? 0)%Z then 1%Z else z
  | None => 1%Z
  end.

(** What the template shows of the metadata: nothing, or the size as it
    is stored and the reduced ratio. *)
Inductive MetaInfo :=
| NoMetaInfo
| SizeAndRatio (width height : option Z) (ratio : option (Z * Z)).

(** [templatePreviewMeta]: the metadata of the field, taken from the
    value and kept when the field has none yet. *)
Definition templatePreviewMeta (f : ImageField) : ImageField * MetaInfo :=
  let shown (f : ImageField) (m : ImageMeta) :=
    (f, SizeAndRatio (width m) (height m)
          (fractReduce (orOne (width m)) (orOne (height m)))) in
  match meta f with
  | Some m => shown f m
  | None =>
      match currentValue f with
      | Some {| url := _; _meta := Some m |} =>
          shown {| meta := Some m; currentValue := currentValue f |} m
      | _ => (f, NoMetaInfo)
      end
  end.

(** The deep merge of lodash on two metadata objects: a dimension that
    the source lacks is kept from the destination. *)
Definition mergeMeta (destination : option ImageMeta)
  (source : option ImageMeta) : option ImageMeta :=
  match destination, source with
  | _, None => destination
  | None, Some s => Some s
  | Some d, Some s =>
      Some {| height := match height s with
                        | Some h => Some h
                        | None => height d
                        end;
              width := match width s with
                       | Some w => Some w
                       | None => width d
                       end |}
  end.

(** [this.currentValue || {}] *)
Definition valueOrEmpty (f : ImageField) : FieldValue :=
  match currentValue f with
  | Some value => value
  | None => {| url := None; _meta := None |}
  end.

(** [handleInput]: the typed address replaces the stored one, the
    metadata of the field is merged in.  The boolean is the call of
    [this.render()]. *)
Definition handleInput (value : string) (f : ImageField)
  : ImageField * bool :=
  ({| meta := meta f;
      currentValue :=
        Some {| url := Some value;
                _meta := mergeMeta (_meta (valueOrEmpty f)) (meta f) |} |},
   true).

(** [handlePreviewImageLoad] and [handlePreviewVideoLoad]: the natural
    dimensions of the loaded element become the metadata. *)
Definition handlePreviewLoad (naturalHeight naturalWidth : Z)
  (f : ImageField) : ImageField * bool :=
  let m := {| height := Some naturalHeight; width := Some naturalWidth |} in
  ({| meta := Some m;
      currentValue :=
        Some {| url := url (valueOrEmpty f);
                _meta := mergeMeta (_meta (valueOrEmpty f)) (Some m) |} |},
   true).

End Image.

(** ** Vocabulary of the statements about cleaning *)

Module CleanVocabulary.

Import Clean.
Local Open Scope string_scope.

(** The bodies of the two loops. *)
Definition recordStep (config : DeepCleanConfig) (newValue : value)
  (kv : string * value) : value :=
  if isObject (snd kv) then
    let value := cleanRecord config (snd kv) in
    if dropsEmpty config value then newValue
    else setProperty (fst kv) value newValue
  else setProperty (fst kv) (snd kv) newValue.

Definition arrayStep (config : DeepCleanConfig) (newValue : list value)
  (item : value) : list value :=
  if isObject item then
    let value := cleanRecord config item in
    if dropsEmpty config value then newValue
    else newValue ++ [value]
  else newValue ++ [item].

(** The own properties of a value. *)
Definition entriesOf (v : value) : list (string * value) :=
  match v with VObject _ entries => entries | _ => [] end.

(** What the loops do with one value: clean it when it is a plain
    object, and pass over it when it has come out empty. *)
Definition cleaned (config : DeepCleanConfig) (v : value) : value :=
  if isObject v then cleanRecord config v else v.

Definition skipped (config : DeepCleanConfig) (v : value) : bool :=
  isObject v && dropsEmpty config (cleanRecord config v).


(** The properties that the loop of [cleanRecord] stores, first to
    last. *)
Fixpoint stored (config : DeepCleanConfig) (entries : list (string * value))
  : list (string * value) :=
  match entries with
  | [] => []
  | kv :: rest =>
      if skipped config (snd kv) then stored config rest
      else if String.eqb (fst kv) "__proto__" then stored config rest
      else (fst kv, cleaned config (snd kv)) :: stored config rest
  end.

(** Whether the result of the loop still inherits [Object] as its
    constructor. *)
Fixpoint inherits (config : DeepCleanConfig)
  (entries : list (string * value)) (start : bool) : bool :=
  match entries with
  | [] => start
  | kv :: rest =>
      if skipped config (snd kv) then inherits config rest start
      else if String.eqb (fst kv) "__proto__" then
        inherits config rest
          match cleaned config (snd kv) with
          | VAtom ANull => false
          | VAtom _ => start
          | VArray _ => false
          | VObject _ _ => isObject (cleaned config (snd kv))
          end
      else inherits config rest start
  end.

(** The items that the loop of [cleanArray] pushes, first to last. *)
Fixpoint pushed (config : DeepCleanConfig) (items : list value)
  : list value :=
  match items with
  | [] => []
  | item :: rest =>
      if skipped config item then pushed config rest
      else cleaned config item :: pushed config rest
  end.



Definition nonEmpty (v : value) : bool :=
  match v with VObject _ [] => false | _ => true end.

(** No property of the object, or item of the array, that the library
    counts as a plain object is empty, and so on through these plain
    objects. *)
Fixpoint tidy (v : value) : bool :=
  match v with
  | VObject _ entries =>
      forallb (fun kv =>
                 if isObject (snd kv)
                 then nonEmpty (snd kv) && tidy (snd kv)
                 else true) entries
  | VArray items =>
      forallb (fun item =>
                 if isObject item then nonEmpty item && tidy item
                 else true) items
  | VAtom _ => true
  end.


(** The properties that are not plain objects and not under the key
    [__proto__], and the items that are not plain objects. *)
Definition plainEntries (entries : list (string * value))
  : list (string * value) :=
  filter (fun kv => negb (isObject (snd kv))
                    && negb (String.eqb (fst kv) "__proto__")) entries.

Definition plainItems (items : list value) : list value :=
  filter (fun item => negb (isObject item)) items.


Definition withConstructorKey : value :=
  VObject true [("constructor", VAtom (AString "x")); ("a", VObject true [])].

End CleanVocabulary.

(** ** Sample surroundings of the editor *)

Module EditorSamples.

Import Editor.

(** Nothing around the editor asks for a render. *)
Definition quietSurroundings : Surroundings :=
  {| duringTemplate := fun _ => 0; onRenderComplete := fun _ => 0 |}.

(** A part asks for a render during every pass. *)
Definition restlessSurroundings : Surroundings :=
  {| duringTemplate := fun _ => 1; onRenderComplete := fun _ => 0 |}.

(** A part asks twice during the first pass, and a listener of the
    completion event asks once after the second. *)
Definition mixedSurroundings : Surroundings :=
  {| duringTemplate := fun pass => if Nat.eqb pass 0 then 2 else 0;
     onRenderComplete := fun pass => if Nat.eqb pass 1 then 1 else 0 |}.

(** Between two states of the editor: as many passes were completed as
    were rendered, and none was taken back. *)
Definition balanced (e e' : LiveEditor) : Prop :=
  rendered e' + completed e = completed e' + rendered e /\
  rendered e <= rendered e'.

End EditorSamples.

(** ** Vocabulary and samples for the statements about the onboarding *)

Module GitHubSamples.

Import Js GitHub.
Local Open Scope string_scope.

(** Two parts hold the same lists, tags, installation and filter. *)
Definition sameLists (p q : GitHubOnboardingPart) : Prop :=
  organizations p = organizations q /\
  installation p = installation q /\
  listFilter p = listFilter q /\
  repositories p = repositories q /\
  repositoriesId p = repositoriesId q /\
  workspaces p = workspaces q /\
  workspacesId p = workspacesId q /\
  storedRecent p = storedRecent q.

(** The part after the organizations have arrived, with the recent
    projects of the specification. *)
Definition organizationsLoaded : GitHubOnboardingPart :=
  {| api := {| authenticated := true; organization := Some "acme";
               project := None; branch := None |};
     organizations := Some [blinkk; acme];
     installation := None; listFilter := None;
     repositories := None; repositoriesId := None;
     workspaces := None; workspacesId := None;
     storedRecent := Some ["acme/site"; "acme/blog"; "other/app"] |}.

(** The same part when the address names an organization without an
    installation. *)
Definition unknownOrganization : GitHubOnboardingPart :=
  withOrganization (Some "nobody") organizationsLoaded.

(** More than nine workspaces, and a filter that matches none. *)
Definition manyWorkspaces : GitHubOnboardingPart :=
  {| api := {| authenticated := true; organization := Some "acme";
               project := Some "site"; branch := None |};
     organizations := None; installation := None;
     listFilter := Some "zzz";
     repositories := None; repositoriesId := None;
     workspaces :=
       Some (map (fun n => {| name := n |})
               ["main"; "staging"; "w1"; "w2"; "w3"; "w4"; "w5"; "w6";
                "w7"; "w8"]);
     workspacesId := Some "site";
     storedRecent := None |}.

(** From one state of the part to a later one: the answer of
    [checkAuth] and the stored recent projects are the same, and neither
    the organizations nor the installation have been forgotten. *)
Definition keeps (p p' : GitHubOnboardingPart) : Prop :=
  authenticated (api p') = authenticated (api p) /\
  storedRecent p' = storedRecent p /\
  (organizations p <> None -> organizations p' <> None) /\
  (installation p <> None -> installation p' <> None).

(** The part that a completion leaves. *)
Definition partAfter {A : Type} (c : Completion A) : GitHubOnboardingPart :=
  match c with
  | Normal _ p _ => p
  | Throw _ p _ => p
  end.

(** The effects that a completion has caused. *)
Definition logOf {A : Type} (c : Completion A) : list Effect :=
  match c with
  | Normal _ _ log => log
  | Throw _ _ log => log
  end.

(** The address names the organization [acme]; nothing is loaded. *)
Definition deepLink : GitHubOnboardingPart :=
  newPart {| authenticated := true; organization := Some "acme";
             project := None; branch := None |} None.

(** The workspaces of [site] on a part that has moved to [blog]. *)
Definition movedToBlog : GitHubOnboardingPart :=
  withProject (Some "blog") samplePart.

(** Whether a view shows the loading status of its list. *)
Definition showsLoading (v : View) : bool :=
  match v with
  | LoginView => false
  | OrganizationsView shown => loading shown
  | RepositoriesView shown _ _ => loading shown
  | WorkspacesView shown => loading shown
  end.

End GitHubSamples.

(* ===================================================================== *)
(** * Part II: properties                                                 *)
(* ===================================================================== *)

Module MediaProps.
Import Media.
Local Open Scope Z_scope.

(** The two defining equations of the Euclidean recursion. *)
Lemma gcd_zero_r (a : Z) : greatestCommonDenominator a 0 = a.
Proof. now simp greatestCommonDenominator. Qed.

Lemma gcd_step (a b : Z) :
  b <> 0 ->
  greatestCommonDenominator a b = greatestCommonDenominator b (Z.rem a b).
Proof.
  intros Hb. rewrite greatestCommonDenominator_equation_1.
  destruct (Z.eq_dec b 0) as [E|E]; [contradiction | reflexivity].
Qed.

(** On non-negative arguments the recursion computes the mathematical gcd. *)
Lemma gcd_is_Zgcd (a b : Z) :
  0 <= a -> 0 <= b -> greatestCommonDenominator a b = Z.gcd a b.
Proof.
  funelim (greatestCommonDenominator a b); intros Ha Hb.
  - subst. rewrite Z.gcd_0_r. lia.
  - assert (Hpos : 0 < denominator) by lia.
    assert (Hrem : Z.rem numerator denominator = numerator mod denominator)
      by (apply Z.rem_mod_nonneg; lia).
    match goal with
    | IH : _ -> _ -> greatestCommonDenominator _ _ = Z.gcd _ _ |- _ =>
        rewrite IH
    end.
    + rewrite Hrem, Z.gcd_comm, Z.gcd_mod by lia. apply Z.gcd_comm.
    + lia.
    + rewrite Hrem. apply Z.mod_pos_bound. lia.
Qed.

Lemma numberDiv_exact (a g : Z) :
  0 < g -> (g | a) -> numberDiv a g = Some (a / g).
Proof.
  intros Hg Hdiv. unfold numberDiv.
  destruct (Z.eqb_spec g 0) as [E|_]; [lia|].
  destruct Hdiv as [k ->].
  rewrite Z.rem_mul by lia. simpl.
  rewrite Z.quot_mul, Z.div_mul by lia. reflexivity.
Qed.

Example fractReduce_16_9 : fractReduce 16 9 = Some (16, 9).
Proof. reflexivity. Qed.

Example fractReduce_1920_1080 : fractReduce 1920 1080 = Some (16, 9).
Proof. reflexivity. Qed.

(** C6.  For positive integers [a] and [b], [fractReduce a b] returns a
    pair [(p, q)] of positive integers in lowest terms (their gcd is 1,
    both for the mathematical gcd and for the program's own Euclidean
    recursion) with [p / q = a / b], stated by cross multiplication; the
    two sample ratios 16:9 are obtained from (16, 9) and (1920, 1080); the
    gcd is the Euclidean recursion, gcd(a, 0) = a and gcd(a, b) =
    gcd(b, a % b), a total function. *)
Theorem fractReduce_lowest_terms (a b : Z) (Ha : 0 < a) (Hb : 0 < b) :
  (exists p q,
      fractReduce a b = Some (p, q) /\
      0 < p /\ 0 < q /\
      Z.gcd p q = 1 /\
      greatestCommonDenominator p q = 1 /\
      p * b = q * a) /\
  fractReduce 16 9 = Some (16, 9) /\
  fractReduce 1920 1080 = Some (16, 9) /\
  greatestCommonDenominator a 0 = a /\
  greatestCommonDenominator a b = greatestCommonDenominator b (Z.rem a b).
Proof.
  split;
    [| repeat split; try reflexivity;
       first [apply gcd_zero_r | apply gcd_step; lia]].
  set (g := Z.gcd a b).
  assert (Hg : 0 < g) by (subst g; pose proof (Z.gcd_nonneg a b);
    assert (Z.gcd a b <> 0) by (intros E; apply Z.gcd_eq_0_l in E; lia); lia).
  assert (Hga : (g | a)) by apply Z.gcd_divide_l.
  assert (Hgb : (g | b)) by apply Z.gcd_divide_r.
  exists (a / g), (b / g).
  assert (Hp : 0 < a / g).
  { destruct Hga as [k Hk]. rewrite Hk, Z.div_mul by lia. nia. }
  assert (Hq : 0 < b / g).
  { destruct Hgb as [k Hk]. rewrite Hk, Z.div_mul by lia. nia. }
  assert (Hcop : Z.gcd (a / g) (b / g) = 1).
  { subst g. apply Z.gcd_div_gcd; [lia | reflexivity]. }
  repeat split; try assumption.
  - unfold fractReduce. rewrite gcd_is_Zgcd by lia. fold g.
    now rewrite !numberDiv_exact.
  - rewrite gcd_is_Zgcd by lia. exact Hcop.
  - destruct Hga as [k Hk], Hgb as [m Hm].
    rewrite Hk at 1. rewrite Hm at 2. rewrite !Z.div_mul by lia.
    rewrite Hk, Hm. ring.
Qed.

Lemma fractReduce_lowest_terms_witness :
  0 < 1920 /\ 0 < 1080 /\
  (exists p q,
      fractReduce 1920 1080 = Some (p, q) /\ 0 < p /\ 0 < q /\
      Z.gcd p q = 1 /\ greatestCommonDenominator p q = 1 /\
      p * 1080 = q * 1920).
Proof.
  split; [lia|]. split; [lia|].
  apply (fractReduce_lowest_terms (a := 1920) (b := 1080)); lia.
Defined.

End MediaProps.

Module ServerProps.
Import Js Server.
Local Open Scope string_scope.

Example resolveUrl_sample :
  resolveUrl newServerApi "//a//b/" = "/a//b/".
Proof. reflexivity. Qed.

Example resolveUrl_service :
  resolveUrl (newServiceServerApi "gh" "acme" "site" None) "/file.get"
  = "https://api.beta.editor.dev/gh/acme/site/main/file.get".
Proof. reflexivity. Qed.

Lemma drop_run_decompose (s : string) :
  s = slashes (run "/" s) ++ drop (run "/" s) s.
Proof.
  induction s as [|d s IH]; [reflexivity|].
  simpl. destruct (Ascii.eqb_spec d "/") as [->|Hd]; simpl.
  - now rewrite <- IH.
  - reflexivity.
Qed.

Lemma drop_run_head (s : string) :
  startsWith (drop (run "/" s) s) "/" = false.
Proof.
  induction s as [|d s IH]; [reflexivity|].
  simpl. destruct (Ascii.eqb_spec d "/") as [->|Hd]; simpl.
  - exact IH.
  - destruct (Ascii.eqb_spec d "/"); [contradiction | reflexivity].
Qed.

(** A starred character matches at the very start of any string, so the
    leftmost match is there. *)
Lemma replace_star (c : ascii) (replacement s : string) :
  replace (ReStar c) replacement s = replacement ++ drop (run c s) s.
Proof. destruct s; reflexivity. Qed.

(** C9.  Every path is a run of [n] slashes followed by a rest that does
    not begin with a slash, and [resolveUrl] returns the base URL followed
    by that rest, as it is: only the leading run is removed, and slashes
    further on in the path stay. *)
Theorem resolveUrl_strips_leading_slashes (api : ServerApi) (path : string) :
  exists (n : nat) (rest : string),
    path = slashes n ++ rest /\
    startsWith rest "/" = false /\
    resolveUrl api path = baseUrl api ++ rest.
Proof.
  exists (run "/" path), (drop (run "/" path) path).
  split; [apply drop_run_decompose|].
  split; [apply drop_run_head|].
  unfold resolveUrl. now rewrite replace_star.
Qed.

End ServerProps.

Module CleanProps.
Import Clean CleanVocabulary.
Local Open Scope string_scope.

(** Induction on structured data, with the hypothesis available for every
    item of an array and every property of an object. *)
Lemma value_nested_ind (P : value -> Prop)
  (Hatom : forall a, P (VAtom a))
  (Harray : forall items, Forall P items -> P (VArray items))
  (Hobject : forall inheritsObject entries,
      Forall (fun kv => P (snd kv)) entries ->
      P (VObject inheritsObject entries)) :
  forall v, P v.
Proof.
  fix IH 1. intros [a | items | inheritsObject entries].
  - apply Hatom.
  - apply Harray. induction items as [|x rest IHrest]; constructor.
    + apply IH.
    + exact IHrest.
  - apply Hobject. induction entries as [|[key x] rest IHrest]; constructor.
    + apply IH.
    + exact IHrest.
Qed.

(** *** The loops, entry by entry *)

Lemma cleanRecord_unfold (config : DeepCleanConfig) inheritsObject entries :
  cleanRecord config (VObject inheritsObject entries)
  = fold_left (recordStep config) entries (VObject true []).
Proof. reflexivity. Qed.

Lemma cleanArray_unfold (config : DeepCleanConfig) items :
  cleanArray config items = fold_left (arrayStep config) items [].
Proof. reflexivity. Qed.

Lemma recordStep_cases (config : DeepCleanConfig) start acc kv :
  recordStep config (VObject start acc) kv =
  if skipped config (snd kv) then VObject start acc
  else if String.eqb (fst kv) "__proto__" then
    VObject match cleaned config (snd kv) with
            | VAtom ANull => false
            | VAtom _ => start
            | VArray _ => false
            | VObject _ _ => isObject (cleaned config (snd kv))
            end acc
  else VObject start (acc ++ [(fst kv, cleaned config (snd kv))])%list.
Proof.
  unfold recordStep, skipped, cleaned, setProperty.
  destruct (isObject (snd kv)) eqn:Eobj; simpl.
  - destruct (dropsEmpty config (cleanRecord config (snd kv))); simpl;
      [reflexivity|].
    destruct (String.eqb (fst kv) "__proto__"); [|reflexivity].
    destruct (cleanRecord config (snd kv)) as [[| | | |]| |]; reflexivity.
  - destruct (String.eqb (fst kv) "__proto__"); [|reflexivity].
    destruct (snd kv) as [[| | | |]| |]; try reflexivity.
    now rewrite Eobj.
Qed.

Lemma record_loop (config : DeepCleanConfig) entries :
  forall start acc,
    fold_left (recordStep config) entries (VObject start acc)
    = VObject (inherits config entries start)
        (acc ++ stored config entries)%list.
Proof.
  induction entries as [|kv rest IH]; intros start acc; simpl.
  - now rewrite app_nil_r.
  - rewrite recordStep_cases.
    destruct (skipped config (snd kv)); [apply IH|].
    destruct (String.eqb (fst kv) "__proto__"); [apply IH|].
    rewrite IH. now rewrite <- app_assoc.
Qed.

(** The result of [cleanRecord]: the properties stored, and the
    constructor inherited. *)
Lemma cleanRecord_stored (config : DeepCleanConfig) inheritsObject entries :
  cleanRecord config (VObject inheritsObject entries)
  = VObject (inherits config entries true) (stored config entries).
Proof. rewrite cleanRecord_unfold. apply record_loop. Qed.

Lemma array_loop (config : DeepCleanConfig) items :
  forall acc,
    fold_left (arrayStep config) items acc
    = (acc ++ pushed config items)%list.
Proof.
  induction items as [|item rest IH]; intros acc; simpl.
  - now rewrite app_nil_r.
  - unfold arrayStep at 2, skipped, cleaned.
    destruct (isObject item); simpl.
    + destruct (dropsEmpty config (cleanRecord config item)); simpl;
        [apply IH|].
      rewrite IH. now rewrite <- app_assoc.
    + rewrite IH. now rewrite <- app_assoc.
Qed.

Lemma cleanArray_pushed (config : DeepCleanConfig) items :
  cleanArray config items = pushed config items.
Proof. rewrite cleanArray_unfold. apply array_loop. Qed.

Lemma stored_cons (config : DeepCleanConfig) kv rest :
  stored config (kv :: rest) =
  if skipped config (snd kv) then stored config rest
  else if String.eqb (fst kv) "__proto__" then stored config rest
  else (fst kv, cleaned config (snd kv)) :: stored config rest.
Proof. reflexivity. Qed.

(** The key [__proto__] is never stored. *)
Lemma stored_no_proto (config : DeepCleanConfig) entries :
  forallb (fun kv => negb (String.eqb (fst kv) "__proto__"))
    (stored config entries) = true.
Proof.
  induction entries as [|kv rest IH]; [reflexivity|].
  rewrite stored_cons.
  destruct (skipped config (snd kv)); [exact IH|].
  destruct (String.eqb (fst kv) "__proto__") eqn:E; [exact IH|].
  simpl. now rewrite E.
Qed.


Example clean_sample :
  clean {| removeEmptyObjects := Some true |}
    (VObject true
       [("a", VObject true [("b", VObject true [])]);
        ("c", VArray [VObject true []]);
        ("d", VAtom (ANumber 1))])
  = VObject true [("c", VArray [VObject true []]); ("d", VAtom (ANumber 1))].
Proof. reflexivity. Qed.

Example cleanArray_sample :
  clean {| removeEmptyObjects := Some true |}
    (VArray [VObject true [("a", VObject true [])];
             VArray [VObject true []]; VAtom ANull])
  = VArray [VArray [VObject true []]; VAtom ANull].
Proof. reflexivity. Qed.

(** An object with a property [constructor] is not a plain object for
    the library: it is returned as it is, empty objects included. *)
Example clean_constructor_sample :
  clean {| removeEmptyObjects := Some true |} withConstructorKey
  = withConstructorKey.
Proof. reflexivity. Qed.

(** *** Idempotence *)






(** *** Cleaning without removal *)

Lemma dropsEmpty_unset (v : value) :
  dropsEmpty {| removeEmptyObjects := None |} v = false.
Proof. reflexivity. Qed.










End CleanProps.

Module EditorProps.
Import Editor.

(** A request made while a pass renders only raises the pending flag. *)
Lemma render_deferred fuel around e :
  isRendering e = true ->
  render fuel around e = Some (setPendingRender true e).
Proof. intros H. destruct fuel; simpl; now rewrite H. Qed.

(** Any positive number of requests made during a pass leave one flag. *)
Lemma calls_deferred fuel around e n :
  isRendering e = true ->
  calls (S n) (render fuel around) e = Some (setPendingRender true e).
Proof.
  intros H. revert e H. induction n as [|n IH]; intros e H.
  - simpl. now rewrite render_deferred.
  - change (calls (S (S n)) (render fuel around) e)
      with (match render fuel around e with
            | Some e' => calls (S n) (render fuel around) e'
            | None => None
            end).
    rewrite render_deferred by exact H.
    rewrite IH by exact H. reflexivity.
Qed.

Ltac editor_fields :=
  unfold settled, countCompleted, countRendered, setRendering,
    setPendingRender; simpl;
  repeat (f_equal; try lia).

(** With quiet listeners, a call made while no pass renders runs one
    pass, and one more after each pass during which requests came in. *)
Lemma render_chain around (k : nat) :
  forall (e : LiveEditor) (fuel : nat),
    isRendering e = false ->
    (forall j, j < k -> duringTemplate around (rendered e + j) <> 0) ->
    duringTemplate around (rendered e + k) = 0 ->
    (forall j, j <= k -> onRenderComplete around (rendered e + j) = 0) ->
    k < fuel ->
    render fuel around e = Some (settled e (S k)).
Proof.
  induction k as [|k IH]; intros e fuel Hidle Hbusy Hlast Hquiet Hfuel.
  - destruct fuel as [|fuel]; [lia|].
    simpl. rewrite Hidle. simpl.
    rewrite Nat.add_0_r in Hlast. rewrite Hlast. simpl.
    specialize (Hquiet 0 (Nat.le_refl 0)). rewrite Nat.add_0_r in Hquiet.
    rewrite Hquiet. simpl.
    editor_fields.
  - destruct fuel as [|fuel]; [lia|].
    simpl. rewrite Hidle. simpl.
    pose proof (Hbusy 0 ltac:(lia)) as Hfirst.
    rewrite Nat.add_0_r in Hfirst.
    destruct (duringTemplate around (rendered e)) as [|n] eqn:En;
      [congruence|].
    rewrite calls_deferred by reflexivity. simpl.
    pose proof (Hquiet 0 ltac:(lia)) as Hq0.
    rewrite Nat.add_0_r in Hq0. rewrite Hq0. simpl.
    set (e1 := countCompleted _).
    assert (Hr1 : rendered e1 = S (rendered e)) by reflexivity.
    rewrite (IH e1 fuel).
    + editor_fields.
    + reflexivity.
    + intros j Hj. rewrite Hr1.
      replace (S (rendered e) + j) with (rendered e + S j) by lia.
      apply Hbusy. lia.
    + rewrite Hr1.
      replace (S (rendered e) + k) with (rendered e + S k) by lia.
      exact Hlast.
    + intros j Hj. rewrite Hr1.
      replace (S (rendered e) + j) with (rendered e + S j) by lia.
      apply Hquiet. lia.
    + lia.
Qed.

(** Calls made one after the other while no pass renders: when each of
    them returns at rest, so does the last. *)
Lemma calls_idle (call : LiveEditor -> option LiveEditor)
  (Hcall : forall e e',
      isRendering e = false -> call e = Some e' ->
      isPendingRender e' = false /\ isRendering e' = false) (n : nat) :
  forall e e',
    isRendering e = false ->
    calls n call e = Some e' ->
    isRendering e' = false /\ (n <> 0 -> isPendingRender e' = false).
Proof.
  induction n as [|n IH]; intros e e' Hidle Hcalls; simpl in Hcalls.
  - injection Hcalls as <-. split; [assumption | congruence].
  - destruct (call e) as [e1|] eqn:E1; [|discriminate].
    destruct (Hcall e e1 Hidle E1) as [Hp1 Hr1].
    destruct (IH e1 e' Hr1 Hcalls) as [Hr Hp]. split; [exact Hr|].
    intros _. destruct n as [|n]; [|apply Hp; discriminate].
    simpl in Hcalls. injection Hcalls as <-. exact Hp1.
Qed.

(** Whatever the surroundings do, a call made while no pass renders
    leaves no request behind when it returns: both flags are down. *)
Lemma render_returns_idle around (fuel : nat) :
  forall e e',
    isRendering e = false ->
    render fuel around e = Some e' ->
    isPendingRender e' = false /\ isRendering e' = false.
Proof.
  induction fuel as [|fuel IH]; intros e e' Hidle Hrender; simpl in Hrender;
    rewrite Hidle in Hrender; [discriminate|].
  set (e1 := countRendered (setRendering true (setPendingRender false e)))
    in Hrender.
  assert (Hbusy : exists e2,
             calls (duringTemplate around (rendered e)) (render fuel around) e1
             = Some e2 /\ isRendering e2 = true).
  { destruct (duringTemplate around (rendered e)) as [|n].
    - exists e1. split; reflexivity.
    - exists (setPendingRender true e1).
      split; [now apply calls_deferred | reflexivity]. }
  destruct Hbusy as (e2 & He2 & Hr2).
  change (rendered (setRendering true (setPendingRender false e)))
    with (rendered e) in Hrender.
  rewrite He2 in Hrender.
  set (e3 := countCompleted (setRendering false e2)) in Hrender.
  destruct (calls (onRenderComplete around (rendered e)) (render fuel around)
              e3) as [e4|] eqn:E4; [|discriminate].
  destruct (calls_idle (render fuel around) IH _ e3 eq_refl E4) as [Hr4 _].
  destruct (isPendingRender e4) eqn:Hp4.
  - exact (IH e4 e' Hr4 Hrender).
  - injection Hrender as <-. split; assumption.
Qed.

(** C8.  A request that arrives while a pass renders returns at once and
    only raises the pending flag: no pass starts, and any number of such
    requests leave the one flag (there is no queue).  A call made while
    no pass renders runs its pass, and exactly one more pass right after
    each pass during which requests arrived: with requests during the
    first [k] passes and none during the next, [k + 1] passes run.  When
    such a call returns, in whatever surroundings, both flags are down. *)
Theorem render_coalesces (around : Surroundings) (e : LiveEditor)
  (k fuel : nat)
  (Hidle : isRendering e = false)
  (Hrequests : forall j, j < k ->
                         duringTemplate around (rendered e + j) <> 0)
  (Hlast : duringTemplate around (rendered e + k) = 0)
  (Hquiet : forall j, j <= k ->
                      onRenderComplete around (rendered e + j) = 0)
  (Hfuel : k < fuel) :
  (forall busy m,
      isRendering busy = true ->
      calls (S m) (render fuel around) busy
      = Some (setPendingRender true busy)) /\
  render fuel around e =
    Some {| isPendingRender := false; isRendering := false;
            rendered := rendered e + S k; completed := completed e + S k |} /\
  (forall others depth idle e',
      isRendering idle = false ->
      render depth others idle = Some e' ->
      isPendingRender e' = false /\ isRendering e' = false).
Proof.
  split; [|split].
  - intros busy m Hbusy. now apply calls_deferred.
  - now apply render_chain.
  - intros others depth idle e'. apply render_returns_idle.
Qed.

(** Three requests during the first pass of a new editor: two passes. *)
Lemma render_coalesces_witness :
  render 2 busyFirstPass newLiveEditor =
    Some {| isPendingRender := false; isRendering := false;
            rendered := 2; completed := 2 |}.
Proof.
  apply (render_coalesces busyFirstPass newLiveEditor (k := 1) (fuel := 2)).
  - reflexivity.
  - intros j Hj. assert (j = 0) by lia. subst j. discriminate.
  - reflexivity.
  - intros j Hj. reflexivity.
  - lia.
Defined.

End EditorProps.

Module GitHubProps.
Import Js GitHub.
Local Open Scope string_scope.

(** Unfolding of the monad, down to the completion of a method. *)
Ltac step_m :=
  cbv [bind this assign emit when ret render throw
       loadOrganizations loadWorkspaces].

Lemma templateOrganizations_view (p : GitHubOnboardingPart) :
  exists shown p' log,
    templateOrganizations p = Normal (OrganizationsView shown) p' log.
Proof.
  unfold templateOrganizations. step_m.
  destruct (organizations p); simpl; eauto.
Qed.

(** Case analysis on whatever a completion still branches on. *)
Ltac part_simpl :=
  unfold withOrganization, withProject, withBranch;
  unfold withApi, withOrganizations, withInstallation, withListFilter,
    withRepositories, withRepositoriesId, withWorkspaces, withWorkspacesId;
  simpl.

Ltac split_cases :=
  repeat (part_simpl;
          match goal with
          | |- context [match ?x with _ => _ end] =>
              lazymatch x with
              | context [match _ with _ => _ end] => fail
              | _ => destruct x eqn:?
              end
          end).

Lemma templateRepositories_view (p : GitHubOnboardingPart) :
  exists shown recent installed p' log,
    templateRepositories p
    = Normal (RepositoriesView shown recent installed) p' log.
Proof.
  unfold templateRepositories, loadRepositories. step_m.
  split_cases; part_simpl; eauto 8.
Qed.

Lemma templateWorkspaces_view (p : GitHubOnboardingPart) :
  exists shown p' log,
    templateWorkspaces p = Normal (WorkspacesView shown) p' log.
Proof.
  unfold templateWorkspaces. step_m.
  split_cases; part_simpl; eauto.
Qed.

Example computeStep_no_organization :
  computeStep {| authenticated := true; organization := None;
                 project := None; branch := None |} = ChooseOrg.
Proof. reflexivity. Qed.

(** C1.  For every state of the part, whatever lists are loaded, the
    template returns a view of exactly one of the four steps, and the
    step is the one derived from the identity alone: Login when not
    authenticated, else ChooseOrg without an organization, else
    ChooseRepo without a project, else ChooseWorkspace.  An empty string
    is no selection, as [undefined] is. *)
Theorem template_step (p : GitHubOnboardingPart) :
  (exists view p' log,
      template p = Normal view p' log /\
      stepOf view = computeStep (api p)) /\
  computeStep (api p) =
    match authenticated (api p), organization (api p), project (api p) with
    | false, _, _ => Login
    | true, None, _ => ChooseOrg
    | true, Some "", _ => ChooseOrg
    | true, Some _, None => ChooseRepo
    | true, Some _, Some "" => ChooseRepo
    | true, Some _, Some _ => ChooseWorkspace
    end.
Proof.
  split.
  - unfold template, computeStep, bind, this.
    destruct (authenticated (api p)); simpl.
    + destruct (truthy (organization (api p))); simpl.
      * destruct (truthy (project (api p))); simpl.
        -- destruct (templateWorkspaces_view p) as (s & p' & log & ->).
           simpl. eauto.
        -- destruct (templateRepositories_view p)
             as (s & r & i & p' & log & ->).
           simpl. eauto.
      * destruct (templateOrganizations_view p) as (s & p' & log & ->).
        simpl. eauto.
    + eauto.
  - unfold computeStep.
    destruct (authenticated (api p)); [|reflexivity].
    destruct (organization (api p)) as [[|c o]|]; try reflexivity.
    destruct (project (api p)) as [[|d r]|]; reflexivity.
Qed.

(** *** The popstate handler *)

(** C4.  A popstate event whose state is [null] makes [handlePopstate]
    throw a [TypeError] at the first property access, before the part is
    touched; for every state that is an object, with or without the
    onboarding flag, the handler returns. *)
Theorem handlePopstate_null_throws (p : GitHubOnboardingPart) :
  handlePopstate StateNull p = Throw TypeError p [] /\
  (forall entry, exists p' log,
      handlePopstate (StateObject entry) p = Normal tt p' log) /\
  (forall server w,
      uncaught (step server w (Popstate StateNull))
      = (uncaught w ++ [TypeError])%list).
Proof.
  split; [reflexivity|]. split.
  - intros entry. unfold handlePopstate. step_m.
    destruct (onboarding entry) as [[|]|]; simpl; eauto.
  - reflexivity.
Qed.

(** *** The click handlers *)

(** C5, as stated, fails for a workspace: the handler leaves the filter
    as it is and asks for no render. *)
Lemma clickWorkspace_counterexample :
  exists p' log,
    clickWorkspace {| name := "main" |} samplePart = Normal false p' log /\
    listFilter p' = Some "ma" /\
    ~ In RequestRender log.
Proof.
  eexists. eexists. split; [reflexivity|]. split; [reflexivity|].
  simpl. intros [H|[H|[]]]; discriminate.
Qed.

(** C5, amended.  Selecting an organization or a repository (from the
    list or from the recent projects) sets the field of the identity,
    clears the filter, pushes an entry made of the new identity and then
    asks for a render.  Selecting a workspace sets the branch, pushes an
    entry made of the new identity and then dispatches the onboarding
    update, instead of asking for a render. *)
Theorem click_handlers (p : GitHubOnboardingPart)
  (o : GitHubInstallationInfo) (r : GitHubOrgInstallationInfo)
  (projectId : string) (w : WorkspaceData) :
  (exists p' e,
      clickOrganization o p
      = Normal false p'
          [PushState e (org o) (generateUrl (Some (org o)) None None);
           RequestRender] /\
      organization (api p') = Some (org o) /\
      installation p' = Some o /\
      listFilter p' = None /\
      e = {| onboarding := Some true;
             entryOrganization := organization (api p');
             entryRepository := None; entryBranch := None |}) /\
  (exists p' e,
      clickRepository r p
      = Normal false p'
          [PushState e (repo r)
             (generateUrl (organization (api p)) (Some (repo r)) None);
           RequestRender] /\
      project (api p') = Some (repo r) /\
      listFilter p' = None /\
      e = {| onboarding := Some true;
             entryOrganization := organization (api p');
             entryRepository := project (api p');
             entryBranch := None |}) /\
  (exists p' e repository,
      clickRecentProject projectId p
      = Normal false p'
          [PushState e repository
             (generateUrl (organization (api p)) (Some repository) None);
           RequestRender] /\
      repository =
        replaceString (interpolate (organization (api p)) ++ "/") ""
          projectId /\
      project (api p') = Some repository /\
      listFilter p' = None /\
      e = {| onboarding := Some true;
             entryOrganization := organization (api p');
             entryRepository := project (api p');
             entryBranch := None |}) /\
  (exists p' e,
      clickWorkspace w p
      = Normal false p'
          [PushState e (name w)
             (generateUrl (organization (api p)) (project (api p))
                (Some (name w)));
           DispatchOnboardingUpdate] /\
      branch (api p') = Some (name w) /\
      e = {| onboarding := Some true;
             entryOrganization := organization (api p');
             entryRepository := project (api p');
             entryBranch := branch (api p') |}).
Proof.
  repeat split.
  - eexists. eexists. repeat split.
  - eexists. eexists. repeat split.
  - eexists. eexists. eexists. repeat split.
  - eexists. eexists. repeat split.
Qed.

(** *** Filtering *)

Lemma trimEnd_blank (s : string) : trimEnd s = "" <-> blank s = true.
Proof.
  induction s as [|c s IH]; simpl; [tauto|].
  destruct (trimEnd s) eqn:E.
  - destruct (isWhiteSpace c); simpl.
    + tauto.
    + split; discriminate.
  - split; [discriminate|].
    intros H. apply andb_true_iff in H. destruct H as [_ H].
    apply IH in H. discriminate.
Qed.

Lemma trimStart_blank (s : string) : blank (trimStart s) = blank s.
Proof.
  induction s as [|c s IH]; simpl; [reflexivity|].
  destruct (isWhiteSpace c) eqn:E; simpl; [exact IH | now rewrite E].
Qed.

Lemma trim_blank (s : string) : trim s = "" <-> blank s = true.
Proof. unfold trim. now rewrite trimEnd_blank, trimStart_blank. Qed.

(** The filter applies when the filter string has a character that is
    not white space. *)
Lemma filterActive_spec (f : option string) :
  filterActive f = true <-> exists s, f = Some s /\ blank s = false.
Proof.
  unfold filterActive. destruct f as [s|]; simpl.
  - destruct (String.eqb_spec (trim s) "") as [E|E].
    + apply trim_blank in E. rewrite andb_false_r.
      split; [discriminate|]. intros (s' & [= <-] & H). congruence.
    + assert (Hb : blank s = false).
      { destruct (blank s) eqn:B; [|reflexivity].
        apply trim_blank in B. contradiction. }
      destruct s; [discriminate Hb|]. simpl. split; eauto.
  - split; [discriminate|]. intros (s & H & _). discriminate.
Qed.

Lemma filter_subsequence {A : Type} (keep : A -> bool) (l : list A) :
  Subsequence (filter keep l) l.
Proof.
  induction l as [|x l IH]; simpl; [constructor|].
  destruct (keep x); now constructor.
Qed.

Lemma subsequence_refl {A : Type} (l : list A) : Subsequence l l.
Proof. induction l; now constructor. Qed.

Lemma filter_twice {A : Type} (keep : A -> bool) (l : list A) :
  filter keep (filter keep l) = filter keep l.
Proof.
  induction l as [|x l IH]; simpl; [reflexivity|].
  destruct (keep x) eqn:E; simpl; [now rewrite E, IH | exact IH].
Qed.

(** C7, as stated, fails for a filter of white space only: the list is
    returned as it is, although no name contains the filter. *)
Lemma filterList_counterexample :
  filterList name (Some " ") (Some sampleWorkspaces) = Some sampleWorkspaces /\
  filter (fun w => includes (name w) " ") sampleWorkspaces = [] /\
  filterList name (Some " ") (Some sampleWorkspaces)
  <> Some (filter (fun w => includes (name w) " ") sampleWorkspaces).
Proof. repeat split; try reflexivity. discriminate. Qed.

(** C7, amended.  Filtering a loaded list returns a subsequence of it,
    in the original order.  With a filter that has a character other
    than white space, the result is made of the items whose display name
    contains the filter; with no filter, an empty one or one of white
    space only, the result is the list itself.  Filtering the result
    again with the same filter returns it unchanged. *)
Theorem filterList_subsequence {A : Type} (displayName : A -> string)
  (f : option string) (items : list A) :
  exists result,
    filterList displayName f (Some items) = Some result /\
    Subsequence result items /\
    ((exists s, f = Some s /\ blank s = false) ->
     result = filter (fun x => includes (displayName x) (orEmpty f)) items) /\
    ((forall s, f = Some s -> blank s = true) -> result = items) /\
    filterList displayName f (Some result) = Some result /\
    filterList displayName (Some "") (Some items) = Some items /\
    filterList displayName None (Some items) = Some items.
Proof.
  unfold filterList. destruct (filterActive f) eqn:E.
  - eexists. split; [reflexivity|].
    split; [apply filter_subsequence|].
    split; [reflexivity|].
    split.
    + intros Hblank. apply filterActive_spec in E.
      destruct E as (s & Hs & Hb). rewrite (Hblank s Hs) in Hb.
      discriminate.
    + split; [now rewrite filter_twice|]. split; reflexivity.
  - exists items. split; [reflexivity|].
    split; [apply subsequence_refl|].
    split.
    + intros H. apply filterActive_spec in H. congruence.
    + repeat split; reflexivity.
Qed.

Lemma filterList_subsequence_witness :
  filterList name (Some "ma") (Some sampleWorkspaces)
  = Some [ {| name := "main" |}; {| name := "workspace/mail" |} ].
Proof.
  destruct (filterList_subsequence name (Some "ma") sampleWorkspaces)
    as (result & -> & _ & Hfilter & _).
  rewrite Hfilter; [reflexivity|].
  exists "ma". split; reflexivity.
Defined.

(** *** Requests of a render *)

Lemma template_organizations (p : GitHubOnboardingPart) :
  computeStep (api p) = ChooseOrg ->
  exists view,
    template p
    = Normal view p
        (if isSome (organizations p) then [] else [GetOrganizations]).
Proof.
  unfold computeStep, template, templateOrganizations. step_m.
  destruct (authenticated (api p)); simpl; [|discriminate].
  destruct (truthy (organization (api p))); simpl.
  - destruct (truthy (project (api p))); discriminate.
  - intros _. destruct (organizations p); simpl; eauto.
Qed.

Lemma template_workspaces (p : GitHubOnboardingPart) :
  computeStep (api p) = ChooseWorkspace ->
  staleWorkspaces p = false ->
  exists view,
    template p
    = Normal view p
        (if isSome (workspaces p) then []
         else [GetWorkspaces (organization (api p)) (project (api p))]).
Proof.
  unfold computeStep, template, templateWorkspaces. step_m.
  destruct (authenticated (api p)); simpl; [|discriminate].
  destruct (truthy (organization (api p))); simpl; [|discriminate].
  destruct (truthy (project (api p))); simpl; [|discriminate].
  intros _ ->. simpl. destruct (workspaces p); simpl; eauto.
Qed.

Lemma template_repositories_loaded (p : GitHubOnboardingPart) :
  computeStep (api p) = ChooseRepo ->
  staleRepositories p = false ->
  repositories p <> None ->
  exists view log,
    template p = Normal view p log /\ requestsOf log = [].
Proof.
  unfold computeStep, template, templateRepositories. step_m.
  destruct (authenticated (api p)); simpl; [|discriminate].
  destruct (truthy (organization (api p))); simpl; [|discriminate].
  destruct (truthy (project (api p))); simpl; [discriminate|].
  intros _ -> Hloaded. simpl.
  destruct (repositories p) as [l|] eqn:E; [|congruence].
  simpl. rewrite E. simpl.
  destruct (filterActive (listFilter p)); simpl; eauto.
Qed.

Lemma template_repositories_absent (p : GitHubOnboardingPart) i :
  computeStep (api p) = ChooseRepo ->
  repositories p = None ->
  organizations p <> None ->
  installation p = Some i ->
  exists view,
    template p = Normal view p [GetRepositories (id i)].
Proof.
  unfold computeStep, template, templateRepositories, staleRepositories,
    loadRepositories.
  step_m.
  destruct (authenticated (api p)); simpl; [|discriminate].
  destruct (truthy (organization (api p))); simpl; [|discriminate].
  destruct (truthy (project (api p))); simpl; [discriminate|].
  intros _ Hrepos Horgs Hinst.
  destruct (organizations p) as [l|] eqn:Hl; [|congruence].
  repeat (first [rewrite Hrepos | rewrite Hl | rewrite Hinst]; simpl).
  eauto.
Qed.

(** Renders that leave the part as it is put the same requests in
    flight each time. *)
Lemma renders_inflight server (requests : list Request) (n : nat) :
  forall w,
    (exists view log,
        template (part w) = Normal view (part w) log /\
        requestsOf log = requests) ->
    part (run server (repeat Render n) w) = part w /\
    inflight (run server (repeat Render n) w)
    = (inflight w ++ List.concat (repeat requests n))%list.
Proof.
  induction n as [|n IH]; intros w Hrender.
  - simpl. now rewrite app_nil_r.
  - destruct Hrender as (view & log & Htemplate & Hlog).
    change (run server (repeat Render (S n)) w)
      with (run server (repeat Render n) (step server w Render)).
    set (w1 := step server w Render).
    assert (Hpart : part w1 = part w)
      by (subst w1; simpl; now rewrite Htemplate).
    assert (Hflight : inflight w1 = (inflight w ++ requests)%list)
      by (subst w1; simpl; rewrite Htemplate; simpl; now rewrite Hlog).
    destruct (IH w1) as [Hp Hi].
    + rewrite Hpart. eauto.
    + rewrite Hp, Hi, Hpart, Hflight. simpl.
      now rewrite app_assoc.
Qed.

Lemma concat_repeat_one {A : Type} (x : A) (n : nat) :
  List.concat (repeat [x] n) = repeat x n.
Proof. induction n; simpl; congruence. Qed.

Lemma concat_repeat_nil {A : Type} (n : nat) :
  List.concat (repeat (@nil A) n) = [].
Proof. induction n; simpl; congruence. Qed.

Lemma renders_one server (r : Request) (n : nat) (w : World) :
  (exists view log,
      template (part w) = Normal view (part w) log /\
      requestsOf log = [r]) ->
  inflight (run server (repeat Render n) w)
  = (inflight w ++ repeat r n)%list.
Proof.
  intros H. rewrite <- (concat_repeat_one r).
  now apply renders_inflight.
Qed.

Lemma renders_none server (n : nat) (w : World) :
  (exists view log,
      template (part w) = Normal view (part w) log /\
      requestsOf log = []) ->
  inflight (run server (repeat Render n) w) = inflight w.
Proof.
  intros H. destruct (renders_inflight server n w H) as [_ ->].
  now rewrite concat_repeat_nil, app_nil_r.
Qed.

(** C2, as stated, fails: two renders while the organizations are loading
    put two requests for them in flight. *)
Lemma duplicate_fetch_counterexample :
  inflight (run sampleServer [Render; Render]
              (newWorld (newPart signedIn None)))
  = [OrganizationsRequest; OrganizationsRequest].
Proof. reflexivity. Qed.

(** C2, amended.  Under an unchanged identity, each render asks for the
    list of the current step when the part does not hold it, whether or
    not an earlier request is still in flight: [n] renders while the
    organizations (the repositories of a known installation, the
    workspaces) are absent put [n] requests for them in flight.  Once the
    part holds the list, and its tag does not make it stale, renders put
    no request in flight. *)
Theorem render_requests_per_render (server : Server) (w : World) (n : nat) :
  let w' := run server (repeat Render n) w in
  let p := part w in
  (computeStep (api p) = ChooseOrg ->
   organizations p = None ->
   inflight w' = (inflight w ++ repeat OrganizationsRequest n)%list) /\
  (computeStep (api p) = ChooseOrg ->
   organizations p <> None ->
   inflight w' = inflight w) /\
  (forall i,
      computeStep (api p) = ChooseRepo ->
      repositories p = None ->
      organizations p <> None ->
      installation p = Some i ->
      inflight w'
      = (inflight w ++ repeat (RepositoriesRequest (id i)) n)%list) /\
  (computeStep (api p) = ChooseRepo ->
   repositories p <> None ->
   staleRepositories p = false ->
   inflight w' = inflight w) /\
  (computeStep (api p) = ChooseWorkspace ->
   workspaces p = None ->
   inflight w'
   = (inflight w
        ++ repeat (WorkspacesRequest (organization (api p))
                     (project (api p))) n)%list) /\
  (computeStep (api p) = ChooseWorkspace ->
   workspaces p <> None ->
   staleWorkspaces p = false ->
   inflight w' = inflight w).
Proof.
  intros w' p. subst w' p.
  repeat split.
  - intros Hstep Habsent.
    destruct (template_organizations _ Hstep) as (view & Hview).
    rewrite Habsent in Hview. simpl in Hview.
    apply renders_one; eauto.
  - intros Hstep Hloaded.
    destruct (template_organizations _ Hstep) as (view & Hview).
    destruct (organizations (part w)); [|congruence]. simpl in Hview.
    apply renders_none; eauto.
  - intros i Hstep Habsent Horgs Hinst.
    destruct (template_repositories_absent _ Hstep Habsent Horgs Hinst)
      as (view & Hview).
    apply renders_one; eauto.
  - intros Hstep Hloaded Hfresh.
    destruct (template_repositories_loaded _ Hstep Hfresh Hloaded)
      as (view & log & Hview & Hlog).
    apply renders_none; eauto.
  - intros Hstep Habsent.
    assert (Hfresh : staleWorkspaces (part w) = false)
      by (unfold staleWorkspaces; now rewrite Habsent).
    destruct (template_workspaces _ Hstep Hfresh) as (view & Hview).
    rewrite Habsent in Hview. simpl in Hview.
    apply renders_one; eauto.
  - intros Hstep Hloaded Hfresh.
    destruct (template_workspaces _ Hstep Hfresh) as (view & Hview).
    destruct (workspaces (part w)); [|congruence]. simpl in Hview.
    apply renders_none; eauto.
Qed.

Lemma render_requests_per_render_witness :
  inflight (run sampleServer (repeat Render 3)
              (newWorld (newPart signedIn None)))
  = [OrganizationsRequest; OrganizationsRequest; OrganizationsRequest].
Proof.
  apply (render_requests_per_render sampleServer
           (newWorld (newPart signedIn None)) 3); reflexivity.
Defined.

(** *** Stale lists *)

(** A loaded list of workspaces whose tag is a truthy string other than
    the current project is dropped by the template and asked for again;
    nothing of it is shown. *)
Lemma stale_workspaces_discarded (p : GitHubOnboardingPart) :
  computeStep (api p) = ChooseWorkspace ->
  staleWorkspaces p = true ->
  exists shown,
    template p
    = Normal (WorkspacesView shown) (withWorkspaces None p)
        [GetWorkspaces (organization (api p)) (project (api p))] /\
    loading shown = true /\
    options shown = [].
Proof.
  unfold computeStep, template, templateWorkspaces. step_m.
  destruct (authenticated (api p)); simpl; [|discriminate].
  destruct (truthy (organization (api p))); simpl; [|discriminate].
  destruct (truthy (project (api p))); simpl; [|discriminate].
  intros _ ->. simpl. eauto.
Qed.

(** The same for the repositories, when the tag is a number other than
    zero and other than the id of the current installation. *)
Lemma stale_repositories_discarded (p : GitHubOnboardingPart) i :
  computeStep (api p) = ChooseRepo ->
  staleRepositories p = true ->
  installation p = Some i ->
  exists shown recent installed log,
    template p
    = Normal (RepositoriesView shown recent installed)
        (withRepositories None p) log /\
    requestsOf log
    = ((if isSome (organizations p) then [] else [OrganizationsRequest])
         ++ [RepositoriesRequest (id i)])%list /\
    loading shown = true /\
    options shown = [].
Proof.
  unfold computeStep, template, templateRepositories, loadRepositories.
  step_m.
  destruct (authenticated (api p)); simpl; [|discriminate].
  destruct (truthy (organization (api p))); simpl; [|discriminate].
  destruct (truthy (project (api p))); simpl; [discriminate|].
  intros _ -> Hinst. part_simpl.
  destruct (organizations p) as [l|] eqn:Hl; part_simpl;
    repeat (first [rewrite Hl | rewrite Hinst]; part_simpl);
    eexists; eexists; eexists; eexists; repeat split.
Qed.

(** The tag makes a list stale only when it is truthy. *)
Lemma staleRepositories_spec (p : GitHubOnboardingPart) :
  staleRepositories p = true <->
  exists l x,
    repositories p = Some l /\ repositoriesId p = Some x /\ x <> 0%Z /\
    option_map id (installation p) <> Some x.
Proof.
  unfold staleRepositories.
  destruct (repositories p) as [l|]; simpl.
  - destruct (repositoriesId p) as [x|]; simpl.
    + destruct (Z.eqb_spec x 0) as [E|E]; simpl.
      * split; [discriminate|]. intros (? & ? & _ & [= <-] & H & _).
        contradiction.
      * destruct (option_map id (installation p)) as [y|]; simpl.
        -- destruct (Z.eqb_spec y x) as [E'|E']; simpl.
           ++ split; [discriminate|].
              intros (? & ? & _ & [= <-] & _ & H). congruence.
           ++ split; [|reflexivity]. intros _.
              exists l, x. repeat split; congruence.
        -- split; [|reflexivity]. intros _.
           exists l, x. repeat split; congruence.
    + split; [discriminate|]. intros (? & ? & _ & H & _). discriminate.
  - split; [discriminate|]. intros (? & ? & H & _). discriminate.
Qed.

(** Before the last click of the session the repositories of [acme]
    are on the screen, [blog] among them, and the workspaces of [site]
    have been stored without a tag. *)
Example session_before_last_click :
  let w := run sampleServer (firstn 13 backBeforeWorkspaces)
             (newWorld (newPart signedIn None)) in
  (exists shown recent installed,
      screen w = Some (RepositoriesView shown recent installed) /\
      options shown = [acmeSite; acmeBlog]) /\
  workspaces (part w)
  = Some (serverWorkspaces sampleServer (Some "acme") (Some "site")) /\
  workspacesId (part w) = None /\
  staleWorkspaces (withProject (Some "blog") (part w)) = false.
Proof.
  vm_compute. split; [|repeat split].
  eexists. eexists. eexists. split; reflexivity.
Qed.

(** The repositories meet the same fate for a while: those of [acme]
    arrive tagged with the installation of [blinkk] and are shown as the
    repositories of [blinkk] until the second response replaces them. *)
Example stale_repositories_shown :
  let w := run sampleServer backBeforeRepositories
             (newWorld (newPart signedIn None)) in
  organization (api (part w)) = Some "blinkk" /\
  repositoriesId (part w) = Some (id blinkk) /\
  (exists recent installed,
      screen w
      = Some (RepositoriesView
                {| title := "Repositories in blinkk";
                   loading := false;
                   filterShown := false;
                   options := serverRepositories sampleServer (id acme);
                   emptyNotice := false |} recent installed)) /\
  inflight w = [RepositoriesRequest (id blinkk)].
Proof.
  vm_compute. repeat split. eexists. eexists. reflexivity.
Qed.

(** C3.  The tag of a list is read when the response arrives, not when
    the request is made.  In the session [backBeforeWorkspaces] the
    workspaces of [site] arrive after the user went back, so they are
    tagged with no project at all; the template of the repository [blog]
    then shows them as the workspaces of [blog], with no request in
    flight that would replace them. *)
Theorem stale_workspaces_shown :
  let w := run sampleServer backBeforeWorkspaces
             (newWorld (newPart signedIn None)) in
  project (api (part w)) = Some "blog" /\
  workspacesId (part w) = None /\
  screen w
  = Some (WorkspacesView
            {| title := "Workspaces in acme/blog";
               loading := false;
               filterShown := false;
               options :=
                 serverWorkspaces sampleServer (Some "acme") (Some "site");
               emptyNotice := false |}) /\
  serverWorkspaces sampleServer (Some "acme") (Some "site")
  <> serverWorkspaces sampleServer (Some "acme") (Some "blog") /\
  inflight w = [] /\
  uncaught w = [].
Proof.
  vm_compute. repeat split. discriminate.
Qed.

End GitHubProps.

Module ImageProps.
Import Js Media Image.
Local Open Scope Z_scope.




(** *** Strings *)

Lemma length_app (a b : string) :
  String.length (a ++ b) = (String.length a + String.length b)%nat.
Proof. induction a as [|c a IH]; simpl; [reflexivity | now rewrite IH]. Qed.

Lemma drop_app (a b : string) : drop (String.length a) (a ++ b) = b.
Proof. induction a as [|c a IH]; simpl; [now destruct b | exact IH]. Qed.

Lemma drop_suffix (n : nat) (s : string) : exists a, s = (a ++ drop n s)%string.
Proof.
  revert s. induction n as [|n IH]; intros s.
  - exists ""%string. now destruct s.
  - destruct s as [|c s]; [now exists ""%string|].
    destruct (IH s) as [a Ha]. exists (String c a). simpl. now rewrite <- Ha.
Qed.

(** [endsWith] holds exactly of the strings that are something followed
    by the suffix. *)
Lemma endsWith_spec (s suffix : string) :
  endsWith s suffix = true <-> exists a, s = (a ++ suffix)%string.
Proof.
  unfold endsWith. split.
  - intros H. apply andb_true_iff in H. destruct H as [_ H].
    apply String.eqb_eq in H.
    destruct (drop_suffix (String.length s - String.length suffix) s)
      as [a Ha].
    exists a. now rewrite H in Ha.
  - intros [a ->]. rewrite length_app. apply andb_true_iff. split.
    + apply Nat.leb_le. lia.
    + replace (String.length a + String.length suffix
               - String.length suffix)%nat
        with (String.length a) by lia.
      rewrite drop_app. apply String.eqb_refl.
Qed.

(** *** Reduced fractions *)

Lemma fractReduce_positive (a b : Z) :
  0 < a -> 0 < b ->
  fractReduce a b = Some (a / Z.gcd a b, b / Z.gcd a b).
Proof.
  intros Ha Hb.
  assert (HG : 0 < Z.gcd a b).
  { pose proof (Z.gcd_nonneg a b).
    assert (Z.gcd a b <> 0) by (intros E; apply Z.gcd_eq_0_l in E; lia).
    lia. }
  unfold fractReduce. rewrite MediaProps.gcd_is_Zgcd by lia. cbv zeta.
  rewrite !MediaProps.numberDiv_exact;
    auto using Z.gcd_divide_l, Z.gcd_divide_r.
Qed.

(** X1.  Scaling both dimensions by the same positive factor does not
    change the reduced ratio: an image of 1920 x 1080 and one of 16 x 9
    show the same ratio. *)
Theorem fractReduce_scale (k a b : Z)
  (Hk : 0 < k) (Ha : 0 < a) (Hb : 0 < b) :
  fractReduce (k * a) (k * b) = fractReduce a b.
Proof.
  assert (HG : 0 < Z.gcd a b).
  { pose proof (Z.gcd_nonneg a b).
    assert (Z.gcd a b <> 0) by (intros E; apply Z.gcd_eq_0_l in E; lia).
    lia. }
  rewrite !fractReduce_positive by nia.
  rewrite Z.gcd_mul_mono_l_nonneg by lia.
  now rewrite !Z.div_mul_cancel_l by lia.
Qed.

Lemma fractReduce_scale_witness :
  fractReduce (120 * 16) (120 * 9) = fractReduce 16 9.
Proof. apply fractReduce_scale; lia. Defined.

(** X2.  A reduced fraction is a fixed point: reducing the result of a
    reduction returns it unchanged. *)
Theorem fractReduce_fixed (a b p q : Z)
  (Ha : 0 < a) (Hb : 0 < b)
  (Hreduced : fractReduce a b = Some (p, q)) :
  fractReduce p q = Some (p, q).
Proof.
  rewrite fractReduce_positive in Hreduced by assumption.
  injection Hreduced as <- <-.
  set (g := Z.gcd a b).
  assert (Hg : 0 < g).
  { subst g. pose proof (Z.gcd_nonneg a b).
    assert (Z.gcd a b <> 0) by (intros E; apply Z.gcd_eq_0_l in E; lia).
    lia. }
  assert (Hp : 0 < a / g).
  { destruct (Z.gcd_divide_l a b) as [k Hk]. fold g in Hk.
    rewrite Hk, Z.div_mul by lia. nia. }
  assert (Hq : 0 < b / g).
  { destruct (Z.gcd_divide_r a b) as [k Hk]. fold g in Hk.
    rewrite Hk, Z.div_mul by lia. nia. }
  assert (Hgcd : Z.gcd (a / g) (b / g) = 1)
    by (subst g; apply Z.gcd_div_gcd; [lia | reflexivity]).
  rewrite fractReduce_positive by assumption.
  now rewrite Hgcd, !Z.div_1_r.
Qed.

Lemma fractReduce_fixed_witness :
  fractReduce 16 9 = Some (16, 9).
Proof.
  apply (fractReduce_fixed (a := 1920) (b := 1080)); [lia | lia | reflexivity].
Defined.

(** *** The preview *)



(** X4.  After the load event of a medium of [w] by [h] pixels the
    template shows that size and the ratio [w / g : h / g], [g] the gcd,
    whatever was stored before, and the value of the field holds the new
    dimensions.  A medium that reports 0 by 0 is shown with the ratio
    1:1. *)
Theorem preview_after_load (f : ImageField) (h w : Z)
  (Hw : 0 < w) (Hh : 0 < h) :
  let loaded := fst (handlePreviewLoad h w f) in
  snd (templatePreviewMeta loaded)
  = SizeAndRatio (Some w) (Some h)
      (Some (w / Z.gcd w h, h / Z.gcd w h)) /\
  _meta (valueOrEmpty loaded)
  = Some {| height := Some h; width := Some w |} /\
  url (valueOrEmpty loaded) = url (valueOrEmpty f) /\
  snd (templatePreviewMeta (fst (handlePreviewLoad 0 0 f)))
  = SizeAndRatio (Some 0) (Some 0) (Some (1, 1)).
Proof.
  simpl. repeat split.
  - unfold templatePreviewMeta. simpl.
    assert (Ew : (w =? 0) = false) by (apply Z.eqb_neq; lia).
    assert (Eh : (h =? 0) = false) by (apply Z.eqb_neq; lia).
    rewrite Ew, Eh. now rewrite fractReduce_positive.
  - destruct (_meta (valueOrEmpty f)); reflexivity.
Qed.

Lemma preview_after_load_witness :
  snd (templatePreviewMeta
         (fst (handlePreviewLoad 1080 1920
                 {| meta := None; currentValue := None |})))
  = SizeAndRatio (Some 1920) (Some 1080) (Some (16, 9)).
Proof.
  apply (preview_after_load {| meta := None; currentValue := None |}
           (h := 1080) (w := 1920)); lia.
Defined.

(** X5.  Typing an address changes the preview address at once but not
    the size and ratio on display: they stay those of the medium loaded
    or stored before, until a load event replaces them. *)
Theorem typing_keeps_meta (f : ImageField) (value : string) :
  previewUrl (fst (handleInput value f)) = orUndefined (Some value) /\
  snd (templatePreviewMeta (fst (handleInput value f)))
  = snd (templatePreviewMeta f).
Proof.
  split; [reflexivity|].
  unfold templatePreviewMeta, handleInput, valueOrEmpty. simpl.
  destruct (meta f) as [m|]; [reflexivity|].
  destruct (currentValue f) as [[u [m|]]|]; reflexivity.
Qed.

(** X6.  The preview is a video exactly when the address ends with
    [.mp4], [.mov] or [.webm]; no address gives no preview, and every
    other address, with an unknown extension, an upper-case one or none,
    gives an image. *)
Theorem templatePreviewMedia_video (url : option string) :
  (templatePreviewMedia url = NoPreview <-> truthy url = false) /\
  (forall src,
      templatePreviewMedia url = VideoPreview src <->
      truthy url = true /\ url = Some src /\
      exists stem ext,
        In ext ["mp4"; "mov"; "webm"]%string /\
        src = (stem ++ "." ++ ext)%string) /\
  (forall src,
      templatePreviewMedia url = ImagePreview src ->
      url = Some src /\
      endsWith src ".mp4" = false /\ endsWith src ".mov" = false /\
      endsWith src ".webm" = false).
Proof.
  unfold templatePreviewMedia.
  destruct (truthy url) eqn:Etruthy; simpl.
  - destruct url as [u|]; [|discriminate]. simpl.
    destruct (endsWith u ".mp4") eqn:E4; simpl;
      [|destruct (endsWith u ".mov") eqn:Ev; simpl;
        [|destruct (endsWith u ".webm") eqn:Ew; simpl]].
    + split; [split; discriminate|]. split; [|discriminate].
      intros src. split.
      * intros [= <-]. repeat split.
        apply endsWith_spec in E4. destruct E4 as [stem ->].
        exists stem, "mp4"%string. simpl. auto.
      * intros (_ & [= <-] & _). reflexivity.
    + split; [split; discriminate|]. split; [|discriminate].
      intros src. split.
      * intros [= <-]. repeat split.
        apply endsWith_spec in Ev. destruct Ev as [stem ->].
        exists stem, "mov"%string. simpl. auto.
      * intros (_ & [= <-] & _). reflexivity.
    + split; [split; discriminate|]. split; [|discriminate].
      intros src. split.
      * intros [= <-]. repeat split.
        apply endsWith_spec in Ew. destruct Ew as [stem ->].
        exists stem, "webm"%string. simpl. auto.
      * intros (_ & [= <-] & _). reflexivity.
    + split; [split; discriminate|]. split.
      * intros src. split; [discriminate|].
        intros (_ & [= <-] & stem & ext & Hext & Hsrc).
        assert (Hends : endsWith u ("." ++ ext) = true)
          by (apply endsWith_spec; now exists stem).
        simpl in Hext.
        destruct Hext as [<-|[<-|[<-|[]]]]; simpl in Hends; congruence.
      * intros src [= <-]. auto.
  - split; [split; reflexivity|]. split.
    + intros src. split; [discriminate|]. intros (H & _). discriminate.
    + discriminate.
Qed.

End ImageProps.

Module CleanExtras.
Import Clean CleanVocabulary CleanProps.
Local Open Scope string_scope.

Lemma dropsEmpty_removing (config : DeepCleanConfig) (v : value) :
  removeEmptyObjects config = Some true ->
  dropsEmpty config v = negb (nonEmpty v).
Proof.
  intros H. unfold dropsEmpty. rewrite H.
  destruct v as [a | items | i [|kv rest]]; reflexivity.
Qed.

Lemma tidy_object inheritsObject entries :
  tidy (VObject inheritsObject entries)
  = forallb (fun kv => if isObject (snd kv)
                       then nonEmpty (snd kv) && tidy (snd kv)
                       else true) entries.
Proof. reflexivity. Qed.

Lemma tidy_array items :
  tidy (VArray items)
  = forallb (fun item => if isObject item
                         then nonEmpty item && tidy item
                         else true) items.
Proof. reflexivity. Qed.


(** What the loops keep of a value is not an empty plain object, and is
    tidy when the cleaned object is. *)
Lemma kept_tidy (config : DeepCleanConfig) (v : value) :
  removeEmptyObjects config = Some true ->
  tidy (cleanRecord config v) = true ->
  skipped config v = false ->
  (if isObject (cleaned config v)
   then nonEmpty (cleaned config v) && tidy (cleaned config v)
   else true) = true.
Proof.
  intros Hcfg Htidy Hskip. unfold skipped, cleaned in *.
  destruct (isObject v) eqn:Ev; [|now rewrite Ev].
  simpl in Hskip. rewrite dropsEmpty_removing in Hskip by exact Hcfg.
  apply negb_false_iff in Hskip. rewrite Hskip, Htidy.
  now destruct (isObject (cleanRecord config v)).
Qed.

Lemma cleanRecord_tidy (config : DeepCleanConfig) (v : value) :
  removeEmptyObjects config = Some true ->
  tidy (cleanRecord config v) = true.
Proof.
  intros Hcfg.
  induction v as [a | items _ | inheritsObject entries IH]
    using value_nested_ind; try reflexivity.
  rewrite cleanRecord_stored, tidy_object.
  induction IH as [|kv rest Hkv Hrest IHrest]; [reflexivity|].
  rewrite stored_cons.
  destruct (skipped config (snd kv)) eqn:Eskip; [exact IHrest|].
  destruct (String.eqb (fst kv) "__proto__"); [exact IHrest|].
  cbn [forallb snd]. now rewrite (@kept_tidy config _ Hcfg Hkv Eskip), IHrest.
Qed.

Lemma cleanArray_tidy (config : DeepCleanConfig) (items : list value) :
  removeEmptyObjects config = Some true ->
  tidy (VArray (cleanArray config items)) = true.
Proof.
  intros Hcfg. rewrite cleanArray_pushed, tidy_array.
  induction items as [|item rest IH]; [reflexivity|]. simpl.
  destruct (skipped config item) eqn:Eskip; [exact IH|].
  cbn [forallb].
  now rewrite (@kept_tidy config _ Hcfg (@cleanRecord_tidy config item Hcfg) Eskip), IH.
Qed.

(** X7.  With [removeEmptyObjects] set, cleaning a plain object (an
    object whose [constructor] is [Object]) or an array gives a value
    without an empty plain object where the cleaner looks: no property
    of the cleaned object, at any depth of nested plain objects, and no
    item of the cleaned array is a plain object without properties. *)
Theorem clean_tidy (config : DeepCleanConfig) (v : value)
  (Hcfg : removeEmptyObjects config = Some true)
  (Hv : isObject v || isArray v = true) :
  tidy (clean config v) = true.
Proof.
  unfold clean. destruct (isObject v) eqn:Ev.
  - now apply cleanRecord_tidy.
  - destruct v as [a | items | i es]; try discriminate.
    now apply cleanArray_tidy.
Qed.

Lemma clean_tidy_witness :
  tidy (clean {| removeEmptyObjects := Some true |}
          (VObject true
             [("a", VObject true [("b", VObject true [])]);
              ("__proto__", VAtom (ANumber 5));
              ("c", VObject true [("d", VAtom ANull);
                                  ("e", VObject true [])])]))
  = true.
Proof.
  apply (@clean_tidy {| removeEmptyObjects := Some true |}
           (VObject true
              [("a", VObject true [("b", VObject true [])]);
               ("__proto__", VAtom (ANumber 5));
               ("c", VObject true [("d", VAtom ANull);
                                   ("e", VObject true [])])]));
    reflexivity.
Defined.

(** An object that is not plain is not cleaned, whatever it holds. *)
Lemma clean_leaves_other (config : DeepCleanConfig) (v : value) :
  isObject v = false -> isArray v = false -> clean config v = v.
Proof.
  intros Hobj Harr. unfold clean. rewrite Hobj.
  destruct v; [reflexivity | discriminate | reflexivity].
Qed.

(** X8.  Whatever the configuration, a property that is not a plain
    object and not under the key [__proto__] comes out of [cleanRecord]
    as it went in, and these properties keep their order; the keys of
    the result are a subsequence of the keys of the original, and
    [__proto__] is not among them.  An item that is not a plain object
    comes out of [cleanArray] as it went in, these items keep their
    order, and the array does not grow. *)
Theorem clean_keeps_plain (config : DeepCleanConfig)
  (inheritsObject : bool) (entries : list (string * value))
  (items : list value) :
  let result := entriesOf (cleanRecord config (VObject inheritsObject entries)) in
  GitHub.Subsequence (plainEntries entries) result /\
  GitHub.Subsequence (map fst result) (map fst entries) /\
  hasOwnProperty "__proto__" result = false /\
  GitHub.Subsequence (plainItems items) (cleanArray config items) /\
  List.length (cleanArray config items) <= List.length items.
Proof.
  cbv zeta. rewrite cleanRecord_stored, cleanArray_pushed. cbn [entriesOf].
  split; [|split; [|split; [|split]]].
  - induction entries as [|[key v] rest IH]; [constructor|].
    rewrite stored_cons. unfold plainEntries, skipped, cleaned. cbn [filter fst snd].
    fold (plainEntries rest).
    destruct (isObject v) eqn:Ev; cbn [negb andb].
    + destruct (dropsEmpty config (cleanRecord config v)); [exact IH|].
      destruct (String.eqb key "__proto__"); [exact IH|].
      now constructor.
    + destruct (String.eqb key "__proto__"); [exact IH|].
      now constructor.
  - induction entries as [|[key v] rest IH]; [constructor|].
    rewrite stored_cons. cbn [fst snd map].
    destruct (skipped config v); [now constructor|].
    destruct (String.eqb key "__proto__"); now constructor.
  - pose proof (stored_no_proto config entries) as H.
    unfold hasOwnProperty.
    induction (stored config entries) as [|kv rest IH]; [reflexivity|].
    simpl in *. apply andb_true_iff in H. destruct H as [Hkey Hrest].
    apply negb_true_iff in Hkey. now rewrite Hkey, (IH Hrest).
  - induction items as [|item rest IH]; [constructor|].
    unfold plainItems, skipped, cleaned. cbn [filter pushed].
    fold (plainItems rest). unfold skipped, cleaned.
    destruct (isObject item) eqn:Ei; cbn [negb andb].
    + destruct (dropsEmpty config (cleanRecord config item));
        [exact IH | now constructor].
    + now constructor.
  - induction items as [|item rest IH]; [reflexivity|]. cbn [pushed].
    destruct (skipped config item); simpl; lia.
Qed.



End CleanExtras.

Module EditorExtras.
Import Editor EditorSamples EditorProps.

Lemma balanced_refl e : balanced e e.
Proof. split; lia. Qed.

Lemma balanced_trans e1 e2 e3 :
  balanced e1 e2 -> balanced e2 e3 -> balanced e1 e3.
Proof. unfold balanced. lia. Qed.

Lemma calls_balanced (call : LiveEditor -> option LiveEditor)
  (Hcall : forall e e', call e = Some e' -> balanced e e') (n : nat) :
  forall e e', calls n call e = Some e' -> balanced e e'.
Proof.
  induction n as [|n IH]; intros e e' H; simpl in H.
  - injection H as <-. apply balanced_refl.
  - destruct (call e) as [e1|] eqn:E; [|discriminate].
    eapply balanced_trans; eauto.
Qed.

Lemma render_balanced around (fuel : nat) :
  forall e e',
    render fuel around e = Some e' ->
    balanced e e' /\ (isRendering e = false -> rendered e < rendered e').
Proof.
  induction fuel as [|fuel IH]; intros e e' Hrender; simpl in Hrender.
  - destruct (isRendering e) eqn:Hr; [|discriminate].
    injection Hrender as <-. split; [split; simpl; lia | discriminate].
  - destruct (isRendering e) eqn:Hr.
    + injection Hrender as <-. split; [split; simpl; lia | discriminate].
    + set (e1 := countRendered (setRendering true (setPendingRender false e)))
        in Hrender.
      destruct (calls _ _ e1) as [e2|] eqn:E2; [|discriminate].
      set (e3 := countCompleted (setRendering false e2)) in Hrender.
      destruct (calls _ _ e3) as [e4|] eqn:E4; [|discriminate].
      assert (H12 : balanced e1 e2)
        by (eapply calls_balanced; [|exact E2]; intros; now apply IH).
      assert (H34 : balanced e3 e4)
        by (eapply calls_balanced; [|exact E4]; intros; now apply IH).
      assert (H03 : rendered e3 + completed e = completed e3 + rendered e /\
                    rendered e < rendered e3).
      { unfold balanced in H12. subst e1 e3. simpl in *. lia. }
      assert (H04 : rendered e4 + completed e = completed e4 + rendered e /\
                    rendered e < rendered e4)
        by (unfold balanced in H34; lia).
      destruct (isPendingRender e4).
      * destruct (IH _ _ Hrender) as [H4 _]. unfold balanced in *.
        split; [|intros _]; lia.
      * injection Hrender as <-. unfold balanced. split; [|intros _]; lia.
Qed.

(** X10.  In whatever surroundings, a call of [render] that returns has
    dispatched the completion event once for each pass it rendered,
    nested calls included; it has rendered at least one pass when no
    pass was rendering, and none when one was. *)
Theorem render_completes_every_pass (around : Surroundings) (fuel : nat)
  (e e' : LiveEditor) (Hreturns : render fuel around e = Some e') :
  rendered e' - rendered e = completed e' - completed e /\
  rendered e <= rendered e' /\
  completed e <= completed e' /\
  (isRendering e = false -> rendered e < rendered e') /\
  (isRendering e = true -> rendered e' = rendered e).
Proof.
  destruct (render_balanced _ _ _ Hreturns) as [[Hb Hle] Hlt].
  repeat split; try lia.
  - exact Hlt.
  - intros Hbusy. rewrite render_deferred in Hreturns by exact Hbusy.
    now injection Hreturns as <-.
Qed.

Lemma render_completes_every_pass_witness :
  exists e',
    render 3 mixedSurroundings newLiveEditor = Some e' /\
    rendered e' - 0 = completed e' - 0 /\ rendered e' = 3.
Proof.
  eexists. split; [reflexivity|]. split; [|reflexivity].
  apply (render_completes_every_pass mixedSurroundings 3 newLiveEditor).
  reflexivity.
Defined.

(** X11.  When a request arrives during every pass, a call of [render]
    made while no pass renders does not return, however deep the
    recursion is allowed to go: each pass is followed by one more. *)
Theorem render_never_settles (around : Surroundings) (fuel : nat)
  (e : LiveEditor)
  (Hidle : isRendering e = false)
  (Hrestless : forall pass, duringTemplate around pass <> 0)
  (Hquiet : forall pass, onRenderComplete around pass = 0) :
  render fuel around e = None.
Proof.
  revert e Hidle. induction fuel as [|fuel IH]; intros e Hidle; simpl;
    rewrite Hidle; [reflexivity|].
  simpl.
  destruct (duringTemplate around (rendered e)) as [|n] eqn:En;
    [now apply Hrestless in En|].
  rewrite calls_deferred by reflexivity. simpl.
  rewrite Hquiet. simpl. now apply IH.
Qed.

Lemma render_never_settles_witness :
  render 50 restlessSurroundings newLiveEditor = None.
Proof.
  apply render_never_settles; [reflexivity | discriminate | reflexivity].
Defined.

(** X12.  Requests that arrive one after the other, each after the
    passes of the one before have ended, are not coalesced: in quiet
    surroundings [n] calls render [n] passes. *)
Theorem sequential_renders (around : Surroundings) (n fuel : nat)
  (e : LiveEditor)
  (Hidle : isRendering e = false)
  (Hquiet : forall pass,
      duringTemplate around pass = 0 /\ onRenderComplete around pass = 0)
  (Hfuel : 0 < fuel) :
  calls (S n) (render fuel around) e = Some (settled e (S n)).
Proof.
  revert e Hidle. induction n as [|n IH]; intros e Hidle.
  - simpl calls.
    rewrite (render_chain around (k := 0) e (fuel := fuel)); try assumption.
    + reflexivity.
    + intros j Hj. lia.
    + apply Hquiet.
    + intros j _. apply Hquiet.
  - change (calls (S (S n)) (render fuel around) e)
      with (match render fuel around e with
            | Some e' => calls (S n) (render fuel around) e'
            | None => None
            end).
    rewrite (render_chain around (k := 0) e (fuel := fuel)); try assumption.
    + rewrite IH by reflexivity.
      unfold settled. simpl. repeat (f_equal; try lia).
    + intros j Hj. lia.
    + apply Hquiet.
    + intros j _. apply Hquiet.
Qed.

Lemma sequential_renders_witness :
  calls 3 (render 1 quietSurroundings) newLiveEditor
  = Some {| isPendingRender := false; isRendering := false;
            rendered := 3; completed := 3 |}.
Proof.
  apply (sequential_renders quietSurroundings 2 newLiveEditor (fuel := 1)).
  - reflexivity.
  - intros pass. split; reflexivity.
  - lia.
Defined.

End EditorExtras.

Module GitHubExtras.
Import Js GitHub GitHubSamples GitHubProps.
Local Open Scope string_scope.

(** *** Strings *)

Lemma startsWith_spec (s p : string) :
  startsWith s p = true <-> exists r, s = p ++ r.
Proof.
  revert s. induction p as [|c p IH]; intros s.
  - split; [exists s; now destruct s | now destruct s].
  - destruct s as [|d s]; simpl.
    + split; [discriminate | intros [r H]; discriminate].
    + rewrite andb_true_iff, IH. split.
      * intros [Hc [r ->]]. apply Ascii.eqb_eq in Hc. subst d. now exists r.
      * intros [r [= -> ->]]. split; [apply Ascii.eqb_refl | now exists r].
Qed.

Lemma append_assoc (a b c : string) : (a ++ b) ++ c = a ++ (b ++ c).
Proof. induction a as [|x a IH]; simpl; [reflexivity | now rewrite IH]. Qed.

Lemma includes_unfold (s p : string) :
  includes s p =
  startsWith s p || match s with
                    | "" => false
                    | String _ s' => includes s' p
                    end.
Proof. destruct s; reflexivity. Qed.

(** [includes] holds exactly when the pattern occurs somewhere. *)
Lemma includes_spec (s p : string) :
  includes s p = true <-> exists a b, s = a ++ p ++ b.
Proof.
  split.
  - induction s as [|c s IH]; rewrite includes_unfold, orb_true_iff.
    + intros [H|H]; [|discriminate].
      apply startsWith_spec in H. destruct H as [r ->]. now exists "", r.
    + intros [H|H].
      * apply startsWith_spec in H. destruct H as [r ->]. now exists "", r.
      * destruct (IH H) as (a & b & ->). now exists (String c a), b.
  - intros (a & b & ->). induction a as [|c a IH];
      rewrite includes_unfold, orb_true_iff.
    + left. apply startsWith_spec. now exists b.
    + right. exact IH.
Qed.

Lemma replaceString_unfold (p replacement s : string) :
  replaceString p replacement s =
  if startsWith s p then replacement ++ drop (String.length p) s
  else match s with
       | String c s' => String c (replaceString p replacement s')
       | "" => ""
       end.
Proof. destruct s; reflexivity. Qed.

Lemma replaceString_prefix (p r : string) : replaceString p "" (p ++ r) = r.
Proof.
  rewrite replaceString_unfold.
  assert (H : startsWith (p ++ r) p = true)
    by (apply startsWith_spec; now exists r).
  rewrite H. apply ImageProps.drop_app.
Qed.

Lemma truthy_orUndefined (s : option string) :
  truthy (orUndefined s) = truthy s.
Proof. unfold orUndefined. destruct (truthy s) eqn:E; [exact E | reflexivity]. Qed.

(** *** History entries *)

(** X13.  In each of the four click handlers the address given to
    [pushState] is the one that [generateUrl] makes of the fields of the
    entry pushed with it, the entry carries [onboarding: true], and the
    title is the name selected: the name of the organization, of the
    repository or of the workspace, and for a recent project its id
    with the first occurrence of the organization and a slash taken
    out. *)
Theorem pushed_url_of_entry (p : GitHubOnboardingPart)
  (o : GitHubInstallationInfo) (r : GitHubOrgInstallationInfo)
  (projectId : string) (w : WorkspaceData) :
  let agrees (c : Completion bool) (title : string) :=
    exists p' e u rest,
      c = Normal false p' (PushState e title u :: rest) /\
      u = generateUrl (entryOrganization e) (entryRepository e)
            (entryBranch e) /\
      onboarding e = Some true in
  agrees (clickOrganization o p) (org o) /\
  agrees (clickRepository r p) (repo r) /\
  agrees (clickRecentProject projectId p)
    (replaceString (interpolate (organization (api p)) ++ "/")%string ""
       projectId) /\
  agrees (clickWorkspace w p) (name w).
Proof.
  cbv zeta. repeat split.
  - do 4 eexists. repeat split.
  - do 4 eexists. repeat split.
  - do 4 eexists. repeat split.
  - do 4 eexists. repeat split.
Qed.

Lemma computeStep_orUndefined (a : bool) (o r b b' : option string) :
  computeStep {| authenticated := a; organization := orUndefined o;
                 project := orUndefined r; branch := b |}
  = computeStep {| authenticated := a; organization := o; project := r;
                   branch := b' |}.
Proof. unfold computeStep. simpl. now rewrite !truthy_orUndefined. Qed.

(** X14.  A popstate event that carries the entry pushed by a selection
    sets the identity to the fields of that entry, an empty string read
    as [undefined], and so leads to the step that the selection led to,
    whatever was selected in between; it asks the state to check the
    onboarding and leaves the lists, their tags, the installation and
    the filter as they are.  For the entry of an organization this holds
    when no project was set at the time of the click: the entry carries
    none. *)
Theorem popstate_returns_to_selection (p q : GitHubOnboardingPart)
  (Hauth : authenticated (api q) = authenticated (api p)) :
  let returns (c : Completion bool) :=
    exists p' e t u rest q',
      c = Normal false p' (PushState e t u :: rest) /\
      handlePopstate (StateObject e) q = Normal tt q' [CheckOnboarding] /\
      organization (api q') = orUndefined (entryOrganization e) /\
      project (api q') = orUndefined (entryRepository e) /\
      branch (api q') = orUndefined (entryBranch e) /\
      computeStep (api q') = computeStep (api p') /\
      sameLists q' q in
  (forall r, returns (clickRepository r p)) /\
  (forall projectId, returns (clickRecentProject projectId p)) /\
  (forall w, returns (clickWorkspace w p)) /\
  (forall o, truthy (project (api p)) = false ->
             returns (clickOrganization o p)).
Proof.
  cbv zeta. unfold sameLists.
  destruct p as [[pa po pr pb] ? ? ? ? ? ? ? ?].
  destruct q as [[qa qo qr qb] ? ? ? ? ? ? ? ?].
  simpl in Hauth. subst qa.
  repeat split.
  - intros r. do 6 eexists. repeat split.
    apply computeStep_orUndefined.
  - intros projectId. do 6 eexists. repeat split.
    apply computeStep_orUndefined.
  - intros w. do 6 eexists. repeat split.
    apply computeStep_orUndefined.
  - intros o Hproject. simpl in Hproject.
    do 6 eexists. repeat split.
    cbn. unfold computeStep. simpl.
    rewrite truthy_orUndefined, Hproject. reflexivity.
Qed.

Lemma popstate_returns_to_selection_witness :
  exists q',
    handlePopstate
      (StateObject {| onboarding := Some true;
                      entryOrganization := Some "acme";
                      entryRepository := Some "site";
                      entryBranch := None |})
      samplePart
    = Normal tt q' [CheckOnboarding] /\
    computeStep (api q') = ChooseWorkspace.
Proof.
  destruct (popstate_returns_to_selection organizationsLoaded samplePart
              eq_refl) as [Hrepo _].
  destruct (Hrepo acmeSite)
    as (p' & e & t & u & rest & q' & Hclick & Hpop & _ & _ & _ & Hstep & _).
  injection Hclick as <- <- <- <- <-.
  exists q'. split; [exact Hpop | exact Hstep].
Defined.

(** X15.  A selection moves an authenticated user on by one step when
    the name selected is not empty: from the organizations to the
    repositories (no project being set), from the repositories to the
    workspaces.  Selecting an organization whose name is empty leaves the
    user at the organizations.  Selecting a workspace changes the branch
    only, never the step. *)
Theorem click_moves_one_step (p : GitHubOnboardingPart)
  (Hauth : authenticated (api p) = true) :
  (forall o p' log,
      clickOrganization o p = Normal false p' log ->
      truthy (project (api p)) = false ->
      computeStep (api p')
      = if String.eqb (org o) "" then ChooseOrg else ChooseRepo) /\
  (forall r p' log,
      clickRepository r p = Normal false p' log ->
      computeStep (api p) = ChooseRepo ->
      computeStep (api p')
      = if String.eqb (repo r) "" then ChooseRepo else ChooseWorkspace) /\
  (forall w p' log,
      clickWorkspace w p = Normal false p' log ->
      computeStep (api p') = computeStep (api p) /\
      branch (api p') = Some (name w)).
Proof.
  destruct p as [[pa po pr pb] ? ? ? ? ? ? ? ?]. simpl in Hauth. subst pa.
  repeat split.
  - intros o p' log [= <- _] Hproject. simpl in Hproject.
    unfold computeStep. simpl. rewrite Hproject.
    now destruct (org o).
  - intros r p' log [= <- _]. unfold computeStep. simpl.
    destruct (truthy po); [|discriminate].
    destruct (truthy pr); [discriminate|]. intros _.
    now destruct (repo r).
  - injection H as <- _. reflexivity.
  - injection H as <- _. reflexivity.
Qed.

Lemma click_moves_one_step_witness :
  computeStep (api (partAfter (clickRepository acmeSite organizationsLoaded)))
  = ChooseWorkspace.
Proof.
  destruct (click_moves_one_step organizationsLoaded eq_refl)
    as (_ & Hrepo & _).
  apply (Hrepo acmeSite _ _ eq_refl). reflexivity.
Defined.

(** *** The views of a loaded list *)

Lemma options_subsequence {A : Type} (displayName : A -> string)
  (f : option string) (l : list A) :
  Subsequence (orNil (filterList displayName f (Some l))) l.
Proof.
  unfold filterList. destruct (filterActive f); simpl.
  - apply filter_subsequence.
  - apply subsequence_refl.
Qed.

(** X16.  When the list of the step is loaded and not stale, the
    template sends nothing and leaves the part as it is; the view is not
    loading; the filter input is there exactly when the whole list has
    more than nine items, whatever the filter has left of it; the notice
    of an empty list is there exactly when the whole list is empty, not
    when the filter hides every item; the options are a subsequence of
    the list. *)
Theorem loaded_list_view (p : GitHubOnboardingPart) :
  let describes {A : Type} (shown : ListView A) (l : list A) :=
    loading shown = false /\
    filterShown shown = (9 <? List.length l)%nat /\
    emptyNotice shown = match l with [] => true | _ => false end /\
    Subsequence (options shown) l in
  (forall l, organizations p = Some l ->
             exists shown,
               templateOrganizations p
               = Normal (OrganizationsView shown) p [] /\
               describes shown l) /\
  (forall l, repositories p = Some l -> staleRepositories p = false ->
             exists shown recent installed log,
               templateRepositories p
               = Normal (RepositoriesView shown recent installed) p log /\
               requestsOf log = [] /\
               describes shown l) /\
  (forall l, workspaces p = Some l -> staleWorkspaces p = false ->
             exists shown,
               templateWorkspaces p
               = Normal (WorkspacesView shown) p [] /\
               describes shown l).
Proof.
  cbv zeta. repeat split.
  - intros l Hl. unfold templateOrganizations. step_m. rewrite Hl. simpl.
    rewrite Hl. eexists. split; [reflexivity|]. simpl.
    repeat split; try reflexivity; try (now destruct l).
    exact (options_subsequence org (listFilter p) l).
  - intros l Hl Hfresh. unfold templateRepositories. step_m.
    rewrite Hfresh. simpl. rewrite Hl. simpl. rewrite Hl. simpl.
    destruct (filterActive (listFilter p)) eqn:Ef; simpl;
      do 4 eexists; (split; [reflexivity|]); simpl;
      (split; [reflexivity|]); rewrite ?Hl;
      repeat split; try reflexivity; try (now destruct l).
    + pose proof (options_subsequence repo (listFilter p) l) as H.
      unfold filterList in H. now rewrite Ef in H.
    + pose proof (options_subsequence repo (listFilter p) l) as H.
      unfold filterList in H. now rewrite Ef in H.
  - intros l Hl Hfresh. unfold templateWorkspaces. step_m.
    rewrite Hfresh. simpl. rewrite Hl. simpl. rewrite Hl.
    eexists. split; [reflexivity|]. simpl.
    repeat split; try reflexivity; try (now destruct l).
    exact (options_subsequence name (listFilter p) l).
Qed.

Lemma loaded_list_view_witness :
  exists shown,
    templateWorkspaces manyWorkspaces
    = Normal (WorkspacesView shown) manyWorkspaces [] /\
    filterShown shown = true /\ emptyNotice shown = false /\
    options shown = [].
Proof.
  destruct (loaded_list_view manyWorkspaces) as (_ & _ & Hws).
  destruct (Hws _ eq_refl eq_refl)
    as (shown & Htemplate & _ & Hfilter & Hnotice & _).
  exists shown. split; [exact Htemplate|].
  split; [exact Hfilter|]. split; [exact Hnotice|].
  vm_compute in Htemplate. now injection Htemplate as <-.
Defined.

(** *** Finding the installation *)

Lemma findInstallation_none (name : string) orgs :
  (forall o, In o orgs -> org o <> name) ->
  findInstallation (Some name) orgs = None.
Proof.
  intros H. unfold findInstallation.
  induction orgs as [|o rest IH]; [reflexivity|]. simpl.
  destruct (String.eqb_spec (org o) name) as [E|_].
  - exfalso. apply (H o); [now left | exact E].
  - apply IH. intros x Hx. apply H. now right.
Qed.

Lemma findInstallation_first (name : string) before o after :
  (forall x, In x before -> org x <> name) ->
  org o = name ->
  findInstallation (Some name) (before ++ o :: after) = Some o.
Proof.
  intros Hbefore Ho. unfold findInstallation.
  induction before as [|x rest IH]; simpl.
  - destruct (String.eqb_spec (org o) name); [reflexivity | contradiction].
  - destruct (String.eqb_spec (org x) name) as [E|_].
    + exfalso. apply (Hbefore x); [now left | exact E].
    + apply IH. intros y Hy. apply Hbefore. now right.
Qed.

(** X17.  When the organizations are loaded and none of them is the
    organization of the identity, the template of the repositories sends
    no request: it stores an empty list of repositories, logs the
    missing installation and asks for a render, and the view shows the
    notice of an empty list instead of the loading status.  (With a
    filter typed, the console message of the filter follows.) *)
Theorem no_installation_no_request (p : GitHubOnboardingPart)
  (name : string) (orgs : list GitHubInstallationInfo)
  (Hname : organization (api p) = Some name)
  (Htruthy : name <> "")
  (Horgs : organizations p = Some orgs)
  (Hinstallation : installation p = None)
  (Hrepositories : repositories p = None)
  (Hmissing : forall o, In o orgs -> org o <> name) :
  exists shown recent rest,
    templateRepositories p
    = Normal (RepositoriesView shown recent false)
        (withRepositories (Some []) p)
        (ConsoleError ("No installation found for " ++ name)
           :: RequestRender :: rest) /\
    requestsOf rest = [] /\
    loading shown = false /\
    emptyNotice shown = true /\
    options shown = [].
Proof.
  pose proof (@findInstallation_none name orgs Hmissing) as Hfind.
  destruct p as [[pa po pr pb] porgs pinst pf prepos prid pws pwid psr].
  simpl in *. subst po porgs pinst prepos.
  unfold templateRepositories, loadRepositories, staleRepositories. step_m.
  part_simpl. destruct name as [|c name]; [contradiction|]. part_simpl.
  rewrite Hfind. part_simpl.
  destruct (filterActive pf); part_simpl; do 3 eexists; repeat split.
Qed.

Lemma no_installation_no_request_witness :
  exists shown recent log,
    templateRepositories unknownOrganization
    = Normal (RepositoriesView shown recent false)
        (withRepositories (Some []) unknownOrganization) log /\
    requestsOf log = [] /\ emptyNotice shown = true.
Proof.
  destruct (no_installation_no_request unknownOrganization
              (name := "nobody") (orgs := [blinkk; acme]))
    as (shown & recent & rest & Htemplate & Hrest & _ & Hnotice & _);
    try reflexivity; try discriminate.
  - intros o [<-|[<-|[]]]; discriminate.
  - exists shown, recent. eexists. split; [exact Htemplate|].
    split; [exact Hrest | exact Hnotice].
Defined.

(** X18.  When the organizations are loaded and the installation is not
    known yet, the template of the repositories takes the first entry of
    the organization of the identity, in the order of the list, as the
    installation, and sends one request, for the repositories of its
    id. *)
Theorem first_installation_used (p : GitHubOnboardingPart)
  (name : string) (before after : list GitHubInstallationInfo)
  (o : GitHubInstallationInfo)
  (Hname : organization (api p) = Some name)
  (Htruthy : name <> "")
  (Horgs : organizations p = Some (before ++ o :: after)%list)
  (Hinstallation : installation p = None)
  (Hrepositories : repositories p = None)
  (Hbefore : forall x, In x before -> org x <> name)
  (Ho : org o = name) :
  exists shown recent,
    templateRepositories p
    = Normal (RepositoriesView shown recent true)
        (withInstallation (Some o) p)
        [GetRepositories (id o)] /\
    loading shown = true /\
    emptyNotice shown = false.
Proof.
  pose proof (@findInstallation_first name before o after Hbefore Ho) as Hfind.
  destruct p as [[pa po pr pb] porgs pinst pf prepos prid pws pwid psr].
  simpl in *. subst po porgs pinst prepos.
  unfold templateRepositories, loadRepositories, staleRepositories. step_m.
  part_simpl. destruct name as [|c name]; [contradiction|]. part_simpl.
  rewrite Hfind. part_simpl.
  do 2 eexists. repeat split.
Qed.

Lemma first_installation_used_witness :
  exists shown recent,
    templateRepositories organizationsLoaded
    = Normal (RepositoriesView shown recent true)
        (withInstallation (Some acme) organizationsLoaded)
        [GetRepositories 7].
Proof.
  destruct (first_installation_used organizationsLoaded
              [blinkk] [] acme (name := "acme"))
    as (shown & recent & Htemplate & _);
    try reflexivity; try discriminate.
  - intros x [<-|[]]. discriminate.
  - now exists shown, recent.
Defined.

(** *** Recent projects *)

(** X19.  The recent projects shown are those stored, in their order,
    that begin with the organization and a slash; a click on one of them
    selects what follows that prefix as the project, and pushes it as
    the repository of the entry. *)
Theorem recent_projects_of_organization (p : GitHubOnboardingPart) :
  Subsequence (recentProjects p) (orNil (storedRecent p)) /\
  (forall projectId,
      In projectId (recentProjects p) <->
      In projectId (orNil (storedRecent p)) /\
      exists repository,
        projectId = interpolate (organization (api p)) ++ "/" ++ repository) /\
  (forall repository,
      exists p' e url,
        clickRecentProject
          (interpolate (organization (api p)) ++ "/" ++ repository) p
        = Normal false p' [PushState e repository url; RequestRender] /\
        project (api p') = Some repository /\
        entryRepository e = Some repository /\
        organization (api p') = organization (api p)).
Proof.
  split; [apply filter_subsequence|]. split.
  - intros projectId. unfold recentProjects. rewrite filter_In.
    rewrite startsWith_spec. split.
    + intros [Hin [r Hr]]. split; [exact Hin|]. exists r.
      rewrite Hr. apply append_assoc.
    + intros [Hin [r Hr]]. split; [exact Hin|]. exists r.
      rewrite Hr. symmetry. apply append_assoc.
  - intros repository.
    assert (E : replaceString (interpolate (organization (api p)) ++ "/") ""
                  (interpolate (organization (api p))
                     ++ String "/" repository)
                = repository).
    { change (String "/" repository) with ("/" ++ repository).
      rewrite <- append_assoc. apply replaceString_prefix. }
    unfold clickRecentProject. step_m. part_simpl. rewrite E.
    do 3 eexists. repeat split.
Qed.

Example recent_projects_sample :
  recentProjects organizationsLoaded = ["acme/site"; "acme/blog"] /\
  map (fun projectId =>
         replaceString (interpolate (organization (api organizationsLoaded))
                          ++ "/") "" projectId)
    (recentProjects organizationsLoaded)
  = ["site"; "blog"].
Proof. split; reflexivity. Qed.

(** *** Filtering *)

(** X20.  With a filter that has a character other than white space, an
    item is among the options exactly when it is in the list and its
    display name is some text, the filter as typed, and some text: the
    match is by containment, sensitive to case, and the filter is not
    trimmed. *)
Theorem filterList_membership {A : Type} (displayName : A -> string)
  (s : string) (items : list A) (Hs : blank s = false) :
  exists result,
    filterList displayName (Some s) (Some items) = Some result /\
    forall x,
      In x result <->
      In x items /\ exists a b, displayName x = a ++ s ++ b.
Proof.
  assert (Hactive : filterActive (Some s) = true)
    by (apply filterActive_spec; now exists s).
  unfold filterList. rewrite Hactive. eexists. split; [reflexivity|].
  intros x. rewrite filter_In. simpl. now rewrite includes_spec.
Qed.

Lemma filterList_membership_witness :
  exists result,
    filterList name (Some "ai ") (Some sampleWorkspaces) = Some result /\
    ~ In {| name := "main" |} result.
Proof.
  destruct (filterList_membership name "ai " sampleWorkspaces)
    as (result & Hresult & Hin); [reflexivity|].
  exists result. split; [exact Hresult|].
  vm_compute in Hresult. injection Hresult as <-. intros [].
Defined.

(** *** Sessions *)

(** X21.  A first session.  Without authentication the template shows
    the login and sends nothing.  For a signed-in user with nothing
    selected, the first render sends one request for the organizations;
    when they have arrived the next render shows all of them and sends
    nothing; a click on an organization with a name sets it as the
    organization of the identity and pushes its entry, and the render
    after it sends one request, for the repositories of the id of the
    organization clicked. *)
Theorem first_session (server : Server) (recent : option (list string))
  (o : GitHubInstallationInfo) (Hname : org o <> "") :
  let w1 := run server [Render] (newWorld (newPart signedIn recent)) in
  let w2 := run server [Settle 0 true; Render] w1 in
  let w3 := run server [ClickOrganization o; Render] w2 in
  (forall p, authenticated (api p) = false ->
             template p = Normal LoginView p []) /\
  inflight w1 = [OrganizationsRequest] /\
  inflight w2 = [] /\
  (exists shown,
      screen w2 = Some (OrganizationsView shown) /\
      options shown = serverOrganizations server /\
      loading shown = false) /\
  organization (api (part w3)) = Some (org o) /\
  inflight w3 = [RepositoriesRequest (id o)] /\
  trail w3
  = [GetOrganizations; RequestRender;
     PushState {| onboarding := Some true;
                  entryOrganization := Some (org o);
                  entryRepository := None; entryBranch := None |}
       (org o) ("/gh/" ++ org o ++ "/");
     RequestRender;
     GetRepositories (id o)].
Proof.
  cbv zeta. split.
  - intros p Hp. unfold template. step_m. now rewrite Hp.
  - destruct o as [oid [|c oname] ourl]; [contradiction|].
    cbn. repeat split. eexists. repeat split.
Qed.

Lemma first_session_witness :
  inflight (run sampleServer
              [Render; Settle 0 true; Render; ClickOrganization acme; Render]
              (newWorld (newPart signedIn None)))
  = [RepositoriesRequest 7].
Proof.
  assert (Hname : org acme <> "") by discriminate.
  apply (@first_session sampleServer None acme Hname).
Defined.

Lemma organizations_loading (p : GitHubOnboardingPart) :
  computeStep (api p) = ChooseOrg ->
  organizations p = None ->
  exists shown,
    template p = Normal (OrganizationsView shown) p [GetOrganizations] /\
    loading shown = true /\ options shown = [].
Proof.
  unfold computeStep, template, templateOrganizations. step_m.
  destruct (authenticated (api p)); simpl; [|discriminate].
  destruct (truthy (organization (api p))); simpl.
  - destruct (truthy (project (api p))); discriminate.
  - intros _ Horgs. rewrite Horgs. simpl. rewrite Horgs.
    eexists. repeat split.
Qed.

Lemma workspaces_loading (p : GitHubOnboardingPart) :
  computeStep (api p) = ChooseWorkspace ->
  workspaces p = None ->
  exists shown,
    template p
    = Normal (WorkspacesView shown) p
        [GetWorkspaces (organization (api p)) (project (api p))] /\
    loading shown = true /\ options shown = [].
Proof.
  unfold computeStep, template, templateWorkspaces, staleWorkspaces. step_m.
  destruct (authenticated (api p)); simpl; [|discriminate].
  destruct (truthy (organization (api p))); simpl; [|discriminate].
  destruct (truthy (project (api p))); simpl; [|discriminate].
  intros _ Hws. rewrite Hws. simpl. rewrite Hws. simpl. rewrite Hws.
  eexists. repeat split.
Qed.

(** X22.  When the request for the organizations, or for the
    workspaces, is rejected, the part stays as it was: the failure is
    logged, no render is asked for, the screen keeps the loading status
    and nothing is in flight.  Nothing is retried by itself; the next
    render, whenever something asks for it, sends the request again. *)
Theorem rejected_request (server : Server) (p : GitHubOnboardingPart) :
  let failed (message : string) (request : Request) (effect : Effect) :=
    let w := run server [Render; Settle 0 false] (newWorld p) in
    part w = p /\
    inflight w = [] /\
    trail w = [effect; ConsoleError message] /\
    (exists view, screen w = Some view /\
                  stepOf view = computeStep (api p) /\
                  showsLoading view = true) /\
    inflight (step server w Render) = [request] in
  (computeStep (api p) = ChooseOrg -> organizations p = None ->
   failed "Unable to retrieve the list of organizations."
     OrganizationsRequest GetOrganizations) /\
  (computeStep (api p) = ChooseWorkspace -> workspaces p = None ->
   failed "Unable to retrieve the list of branches."
     (WorkspacesRequest (organization (api p)) (project (api p)))
     (GetWorkspaces (organization (api p)) (project (api p)))).
Proof.
  cbv zeta. split.
  - intros Hstep Habsent.
    destruct (organizations_loading p Hstep Habsent)
      as (shown & Htemplate & Hloading & _).
    unfold run, newWorld. simpl. rewrite Htemplate. simpl.
    rewrite Htemplate. simpl. rewrite Hstep. repeat split.
    now exists (OrganizationsView shown).
  - intros Hstep Habsent.
    destruct (workspaces_loading p Hstep Habsent)
      as (shown & Htemplate & Hloading & _).
    unfold run, newWorld. simpl. rewrite Htemplate. simpl.
    rewrite Htemplate. simpl. rewrite Hstep. repeat split.
    now exists (WorkspacesView shown).
Qed.

Lemma rejected_request_witness :
  let w := run sampleServer [Render; Settle 0 false]
             (newWorld (newPart signedIn None)) in
  part w = newPart signedIn None /\
  trail w
  = [GetOrganizations;
     ConsoleError "Unable to retrieve the list of organizations."].
Proof.
  destruct (rejected_request sampleServer (newPart signedIn None))
    as [Horgs _].
  destruct (Horgs eq_refl eq_refl) as (Hpart & _ & Htrail & _).
  split; [exact Hpart | exact Htrail].
Defined.

(** *** Tags *)

(** X23.  A loaded list whose tag is truthy and is not the current id is
    dropped by the template before anything of it is shown, and asked
    for again with the current id: the workspaces when their tag is a
    string other than the empty one and other than the project, the
    repositories when their tag is a number other than zero and other
    than the id of the installation. *)
Theorem mismatched_tag_refetches (p : GitHubOnboardingPart) :
  (forall l tag,
      computeStep (api p) = ChooseWorkspace ->
      workspaces p = Some l ->
      workspacesId p = Some tag -> tag <> "" ->
      project (api p) <> Some tag ->
      exists shown,
        template p
        = Normal (WorkspacesView shown) (withWorkspaces None p)
            [GetWorkspaces (organization (api p)) (project (api p))] /\
        loading shown = true /\ options shown = []) /\
  (forall l tag i,
      computeStep (api p) = ChooseRepo ->
      repositories p = Some l ->
      repositoriesId p = Some tag -> tag <> 0%Z ->
      installation p = Some i -> id i <> tag ->
      exists shown recent installed log,
        template p
        = Normal (RepositoriesView shown recent installed)
            (withRepositories None p) log /\
        requestsOf log
        = ((if isSome (organizations p) then [] else [OrganizationsRequest])
             ++ [RepositoriesRequest (id i)])%list /\
        loading shown = true /\ options shown = []).
Proof.
  split.
  - intros l tag Hstep Hl Htag Htruthy Hproject.
    apply stale_workspaces_discarded; [exact Hstep|].
    unfold staleWorkspaces. rewrite Hl, Htag. simpl.
    destruct tag as [|c tag]; [contradiction|]. simpl.
    destruct (project (api p)) as [r|]; simpl; [|reflexivity].
    destruct (String.eqb_spec r (String c tag)); [congruence | reflexivity].
  - intros l tag i Hstep Hl Htag Htruthy Hi Hid.
    apply stale_repositories_discarded; [exact Hstep| |exact Hi].
    apply staleRepositories_spec. exists l, tag.
    rewrite Hi. simpl. repeat split; congruence.
Qed.

Lemma mismatched_tag_refetches_witness :
  exists shown,
    template movedToBlog
    = Normal (WorkspacesView shown) (withWorkspaces None movedToBlog)
        [GetWorkspaces (Some "acme") (Some "blog")].
Proof.
  destruct (mismatched_tag_refetches movedToBlog) as [Hws _].
  destruct (Hws _ "site" eq_refl eq_refl eq_refl) as (shown & H & _);
    try discriminate.
  now exists shown.
Defined.

(** *** What no handler does *)

Lemma keeps_refl p : keeps p p.
Proof. unfold keeps. tauto. Qed.

Lemma keeps_trans p1 p2 p3 : keeps p1 p2 -> keeps p2 p3 -> keeps p1 p3.
Proof. unfold keeps. intuition congruence. Qed.

Ltac solve_keeps :=
  unfold keeps; part_simpl; repeat split; try congruence;
  try (intros; congruence); try discriminate;
  try (match goal with
       | H : negb (isSome (installation ?p)) && _ = true |- _ =>
           destruct (installation p); simpl in H; congruence
       end).

Lemma template_keeps (p : GitHubOnboardingPart) :
  keeps p (partAfter (template p)).
Proof.
  unfold template, templateOrganizations, templateRepositories,
    templateWorkspaces, loadRepositories, partAfter.
  step_m. split_cases; solve_keeps.
Qed.

Lemma step_keeps (server : Server) (w : World) (ev : Event) :
  keeps (part w) (part (step server w ev)).
Proof.
  destruct ev; simpl.
  - pose proof (template_keeps (part w)) as H.
    destruct (template (part w)); exact H.
  - destruct state as [|entry]; [apply keeps_refl|].
    unfold handlePopstate. step_m.
    destruct (onboarding entry) as [[|]|]; solve_keeps.
  - solve_keeps.
  - solve_keeps.
  - solve_keeps.
  - solve_keeps.
  - solve_keeps.
  - destruct (nth_error (inflight w) k) as [r|]; [|apply keeps_refl].
    destruct r, fulfilled; solve_keeps.
Qed.

(** X24.  Along any sequence of events, no handler changes the answer
    of [checkAuth] or the stored recent projects, and none forgets the
    organizations once they are loaded or the installation once it is
    known: the organizations are never invalidated, and the installation
    is only ever replaced by a click on an organization. *)
Theorem nothing_forgotten (server : Server) (events : list Event)
  (w : World) :
  authenticated (api (part (run server events w)))
  = authenticated (api (part w)) /\
  storedRecent (part (run server events w)) = storedRecent (part w) /\
  (organizations (part w) <> None ->
   organizations (part (run server events w)) <> None) /\
  (installation (part w) <> None ->
   installation (part (run server events w)) <> None).
Proof.
  change (keeps (part w) (part (run server events w))).
  revert w. induction events as [|ev events IH]; intros w.
  - apply keeps_refl.
  - simpl. eapply keeps_trans; [apply step_keeps | apply IH].
Qed.

Lemma nothing_forgotten_witness :
  organizations
    (part (run sampleServer
             [Render; ClickRepository acmeSite; Render; Popstate entry0;
              Render; Settle 0 false]
             (newWorld organizationsLoaded)))
  <> None.
Proof.
  apply (nothing_forgotten sampleServer
           [Render; ClickRepository acmeSite; Render; Popstate entry0;
            Render; Settle 0 false]
           (newWorld organizationsLoaded)).
  discriminate.
Defined.

Lemma requestsOf_app (l l' : list Effect) :
  requestsOf (l ++ l') = (requestsOf l ++ requestsOf l')%list.
Proof. apply flat_map_app. Qed.

Lemma removeNth_none {A : Type} (k : nat) (l : list A) :
  nth_error l k = None -> removeNth k l = l.
Proof.
  revert k. induction l as [|x l IH]; intros [|k] H; simpl in *;
    try reflexivity; try discriminate.
  now rewrite IH.
Qed.

Lemma template_requests (p : GitHubOnboardingPart) :
  List.length (requestsOf (logOf (template p))) <= 2.
Proof.
  unfold template, templateOrganizations, templateRepositories,
    templateWorkspaces, loadRepositories, logOf.
  step_m. split_cases; part_simpl; lia.
Qed.

(** X25.  Requests are sent by the template only.  A click, a popstate
    event and a typed filter send none and leave the requests in flight
    as they are; a settled request leaves the flight and its callback
    sends none; one render sends at most two requests. *)
Theorem requests_come_from_renders (server : Server) (w : World)
  (ev : Event) :
  match ev with
  | Render =>
      exists sent,
        inflight (step server w ev) = (inflight w ++ sent)%list /\
        List.length sent <= 2
  | Settle k _ =>
      inflight (step server w ev) = removeNth k (inflight w) /\
      requestsOf (trail (step server w ev)) = requestsOf (trail w)
  | _ =>
      inflight (step server w ev) = inflight w /\
      requestsOf (trail (step server w ev)) = requestsOf (trail w)
  end.
Proof.
  destruct ev; simpl.
  - pose proof (template_requests (part w)) as H.
    destruct (template (part w)) as [v p' log|e p' log]; simpl in *;
      eexists; split; try reflexivity; exact H.
  - destruct state as [|entry]; simpl.
    + now rewrite !app_nil_r.
    + unfold handlePopstate. step_m.
      destruct (onboarding entry) as [[|]|]; simpl;
        rewrite ?requestsOf_app, ?app_nil_r; simpl;
        rewrite ?app_nil_r; split; reflexivity.
  - rewrite requestsOf_app. simpl. now rewrite !app_nil_r.
  - rewrite requestsOf_app. simpl. now rewrite !app_nil_r.
  - rewrite requestsOf_app. simpl. now rewrite !app_nil_r.
  - rewrite requestsOf_app. simpl. now rewrite !app_nil_r.
  - rewrite requestsOf_app. simpl. now rewrite !app_nil_r.
  - destruct (nth_error (inflight w) k) as [r|] eqn:E.
    + destruct r, fulfilled; simpl;
        rewrite ?requestsOf_app; simpl; now rewrite !app_nil_r.
    + split; [symmetry; now apply removeNth_none | reflexivity].
Qed.

(** X26.  A part whose identity already names an organization, with
    nothing loaded: the first render asks for the organizations only;
    when they have arrived, the next render takes the first entry of the
    organization as the installation and asks for its repositories.  Two
    requests are sent in all. *)
Theorem organization_from_the_address (server : Server)
  (p : GitHubOnboardingPart) (name : string)
  (before after : list GitHubInstallationInfo) (o : GitHubInstallationInfo)
  (Hstep : computeStep (api p) = ChooseRepo)
  (Hname : organization (api p) = Some name)
  (Horgs : organizations p = None)
  (Hinstallation : installation p = None)
  (Hrepositories : repositories p = None)
  (Hserver : serverOrganizations server = (before ++ o :: after)%list)
  (Hbefore : forall x, In x before -> org x <> name)
  (Ho : org o = name) :
  let w1 := run server [Render] (newWorld p) in
  let w2 := run server [Settle 0 true; Render] w1 in
  part w1 = p /\
  inflight w1 = [OrganizationsRequest] /\
  installation (part w2) = Some o /\
  inflight w2 = [RepositoriesRequest (id o)] /\
  requestsOf (trail w2)
  = [OrganizationsRequest; RepositoriesRequest (id o)].
Proof.
  pose proof (@findInstallation_first name before o after Hbefore Ho) as Hfind.
  rewrite <- Hserver in Hfind.
  destruct p as [[pa po pr pb] porgs pinst pf prepos prid pws pwid psr].
  simpl in *. subst po porgs pinst prepos.
  unfold computeStep in Hstep. simpl in Hstep.
  destruct pa; simpl in Hstep; [|discriminate].
  destruct name as [|c name]; simpl in Hstep; [discriminate|].
  destruct (truthy pr) eqn:Hpr; simpl in Hstep; [discriminate|].
  cbv zeta. unfold run, newWorld. simpl.
  unfold template, templateRepositories, loadRepositories,
    staleRepositories.
  step_m. part_simpl.
  repeat (first [rewrite Hpr | rewrite Hfind]; part_simpl).
  repeat split.
Qed.

Lemma organization_from_the_address_witness :
  inflight (run sampleServer [Render; Settle 0 true; Render]
              (newWorld deepLink))
  = [RepositoriesRequest 7].
Proof.
  apply (@organization_from_the_address sampleServer deepLink "acme"
           [] [blinkk] acme); try reflexivity.
  intros x [].
Defined.

End GitHubExtras.
